(** * spacy_curated_transformers.models.architectures

    A shallow embedding of the tensor boundary converters, the model
    composition glue, the checkpoint loader and the gradient-scaler
    configuration of [architectures.py], followed by the properties the
    specification states about them.

    Conventions.
    - A Python call that may raise is a computation in [result]; a call that
      also touches mutable state is a computation in [M St], a state and
      exception monad over the state [St] it touches.
    - A one-dimensional integer array ([Ints1d]) is a [list Z]; a
      two-dimensional array is a list of rows; a three-dimensional tensor
      (batch x timestep x hidden) is a list of rows of timesteps.
    - Dictionaries are [gmap string _]. *)

From stdpp Require Import gmap strings list pretty.

Open Scope string_scope.
Open Scope list_scope.
Open Scope nat_scope.

(** ** Python runtime: exceptions, results, state *)

Inductive exn : Type :=
  | ValueError (msg : string)
  | IndexError (msg : string)
  | KeyError (key : string)
  | AttributeError (name : string)
  | TypeError (msg : string)
  | AssertionError
  | ExternalError (msg : string).

Inductive result (A : Type) : Type :=
  | Ok (a : A)
  | Raise (e : exn).
Arguments Ok {A} a.
Arguments Raise {A} e.

Definition result_bind {A B : Type} (f : A → result B) (r : result A) : result B :=
  match r with
  | Ok a => f a
  | Raise e => Raise e
  end.

Definition result_map {A B : Type} (f : A → B) (r : result A) : result B :=
  match r with
  | Ok a => Ok (f a)
  | Raise e => Raise e
  end.

#[global] Instance result_mret : MRet result := @Ok.
#[global] Instance result_fmap : FMap result := @result_map.
#[global] Instance result_mbind : MBind result := @result_bind.

(** State and exception monad: an exception leaves the state as it was when
    the exception was raised. *)
Definition M (St A : Type) : Type := St → result A * St.

Definition M_ret {St A : Type} (a : A) : M St A := λ s, (Ok a, s).

Definition M_bind {St A B : Type} (f : A → M St B) (m : M St A) : M St B :=
  λ s, match m s with
       | (Ok a, s') => f a s'
       | (Raise e, s') => (Raise e, s')
       end.

#[global] Instance M_mret (St : Type) : MRet (M St) := @M_ret St.
#[global] Instance M_mbind (St : Type) : MBind (M St) := @M_bind St.

Definition raise {St A : Type} (e : exn) : M St A := λ s, (Raise e, s).

Definition lift {St A : Type} (r : result A) : M St A := λ s, (r, s).

(** [for i in range(n): acc = body i acc] *)
Fixpoint for_range_from {St A : Type} (start n : nat)
    (body : nat → A → M St A) (acc : A) : M St A :=
  match n with
  | 0 => mret acc
  | S n' => acc' ← body start acc; for_range_from (S start) n' body acc'
  end.

Definition for_range {St A : Type} (n : nat) (body : nat → A → M St A)
    (acc : A) : M St A :=
  for_range_from 0 n body acc.

(** [enumerate(l)] *)
Definition enumerate {A : Type} (l : list A) : list (nat * A) :=
  imap (λ i x, (i, x)) l.

(** The builtin [max] over an iterable of sizes. *)
Definition max_empty_msg : string := "max() arg is an empty sequence".

Definition py_max (l : list nat) : result nat :=
  match l with
  | [] => Raise (ValueError max_empty_msg)
  | x :: xs => Ok (foldl Nat.max x xs)
  end.

(** [l[i]] for [0 <= i]. *)
Definition getitem {A : Type} (l : list A) (i : nat) : result A :=
  match l !! i with
  | Some x => Ok x
  | None => Raise (IndexError "list index out of range")
  end.

(** [l[-1]] *)
Definition getitem_last {A : Type} (l : list A) : result A :=
  match last l with
  | Some x => Ok x
  | None => Raise (IndexError "list index out of range")
  end.

(** ** Arrays, tensors and devices *)

Abbreviation Ints1d := (list Z) (only parsing).
Abbreviation Ints2d := (list (list Z)) (only parsing).

(** [x.size] and [x.shape[0]] of a one-dimensional array. *)
Definition size (x : Ints1d) : nat := length x.
Definition shape0 (x : Ints1d) : nat := length x.

Inductive torch_device : Type :=
  | Cuda (index : Z)
  | DefaultDevice.

(** A torch tensor: contents plus the device that holds them. *)
Record torch_tensor (T : Type) : Type := TorchTensor {
  tt_device : torch_device;
  tt_data : T
}.
Arguments TorchTensor {T} _ _.
Arguments tt_device {T} _.
Arguments tt_data {T} _.

(** [thinc.api.xp2torch]: same contents, placed on [device], or on the
    default torch device when no device is given. *)
Definition xp2torch {T : Type} (x : T) (device : option torch_device) : torch_tensor T :=
  TorchTensor (default DefaultDevice device) x.

(** [thinc.api.torch2xp]: the contents as a backend array. *)
Definition torch2xp {T : Type} (t : torch_tensor T) : T := tt_data t.

Record Ops : Type := {
  device_type : string;
  device_id : Z
}.

(** The part of a thinc [Model] the converters read. *)
Record Model : Type := {
  ops : Ops;
  attrs : gmap string bool
}.

Record ArgsKwargs (A K : Type) : Type := mkArgsKwargs {
  args : list A;
  kwargs : gmap string K
}.
Arguments mkArgsKwargs {A K} _ _.
Arguments args {A K} _.
Arguments kwargs {A K} _.

(** Allocations made through [ops], in program order. *)
Inductive alloc_event : Type :=
  | AllocFull (rows cols : nat) (fill : Z)
  | Alloc1f (n : nat).

Abbreviation alloc_log := (list alloc_event) (only parsing).

(** [ops.xp.full((rows, cols), fill)] *)
Definition xp_full (rows cols : nat) (fill : Z) : M alloc_log Ints2d :=
  λ log, (Ok (replicate rows (replicate cols fill)), log ++ [AllocFull rows cols fill]).

(** [Xt[i, :stop] = value]: the target is the first [min stop cols] cells of
    row [i]; [value] must have that many entries, or a single entry, which
    is then broadcast. *)
Definition setitem_row_prefix (Xt : Ints2d) (i stop : nat) (value : Ints1d)
    : result Ints2d :=
  match Xt !! i with
  | None => Raise (IndexError "index is out of bounds for axis 0")
  | Some row =>
      let n := stop `min` length row in
      if decide (length value = n) then
        Ok (<[i := value ++ drop n row]> Xt)
      else
        match value with
        | [v] => Ok (<[i := replicate n v ++ drop n row]> Xt)
        | _ => Raise (ValueError "could not broadcast input array")
        end
  end.

(** ** Tensor boundary converter, forward direction: pad *)

Section ConvertInputs.
(** Element type of the float buffers [ops.alloc1f] returns, with its zero. *)
Context {float : Type} (fzero : float).
(** Type of the gradient argument the backward closure ignores. *)
Context {PyAny : Type}.

(** [ops.alloc1f(n)] *)
Definition alloc1f (n : nat) : M alloc_log (list float) :=
  λ log, (Ok (replicate n fzero), log ++ [Alloc1f n]).

Definition seq_too_long_msg (max_seq_len : nat) (max_model_seq_len : Z) : string :=
  "At least one sequence in the transformer's input has a length "
  +:+ "of " +:+ pretty max_seq_len
  +:+ ", which is larger than the model's maximum sequence "
  +:+ "length of " +:+ pretty max_model_seq_len +:+ " tokens".

(** The closure [convert_from_torch_backward], with the variable [X] it
    captures as a parameter. *)
Definition convert_from_torch_backward (X : list Ints1d) (d_inputs : PyAny)
    : M alloc_log (list (list float)) :=
  mapM (λ x, alloc1f (shape0 x)) X.

Definition _convert_inputs (model : Model) (X : list Ints1d) (is_train : bool)
    (max_model_seq_len : Z) (padding_idx : Z)
    : M alloc_log (ArgsKwargs (torch_tensor Ints2d) Empty_set
                   * (PyAny → M alloc_log (list (list float)))) :=
  let ops := ops model in
  max_seq_len ← lift (py_max (size <$> X));
  if decide (max_model_seq_len < Z.of_nat max_seq_len)%Z then
    raise (ValueError (seq_too_long_msg max_seq_len max_model_seq_len))
  else
    Xt ← xp_full (length X) max_seq_len padding_idx;
    Xt ← for_range (length X) (λ i Xt,
            span ← lift (getitem X i);
            let span_len := shape0 span in
            lift (setitem_row_prefix Xt i span_len span)) Xt;
    let Xt :=
      if decide (device_type ops = "gpu") then
        let device := Cuda (device_id ops) in
        xp2torch Xt (Some device)
      else
        xp2torch Xt None in
    let output := mkArgsKwargs [Xt] ∅ in
    mret (output, convert_from_torch_backward X).
End ConvertInputs.

(** ** Tensor boundary converter, backward direction: un-pad *)

(** [d[key]] on a dictionary. *)
Definition getitem_dict {V : Type} (d : gmap string V) (key : string) : result V :=
  match d !! key with
  | Some v => Ok v
  | None => Raise (KeyError key)
  end.

(** The owning pipe sets [model.attrs["_all_layer_outputs"]] before each
    forward pass. *)
Definition set_all_layer_outputs (b : bool) (model : Model) : Model :=
  {| ops := ops model; attrs := <["_all_layer_outputs" := b]> (attrs model) |}.

Section ConvertOutputs.
Context {float : Type}.

(** timestep x hidden, and batch x timestep x hidden *)
Abbreviation Floats2d := (list (list float)) (only parsing).
Abbreviation Floats3d := (list (list (list float))) (only parsing).

Record PyTorchTransformerOutput : Type := {
  all_outputs : list (torch_tensor Floats3d)
}.

Record TransformerModelOutput : Type := {
  outputs : list (list Floats2d);
  last_layer_only : bool
}.

(** [output[i, :len, :]] *)
Definition index_row_prefix (output : torch_tensor Floats3d) (i len : nat)
    : result (torch_tensor Floats2d) :=
  match tt_data output !! i with
  | Some row => Ok (TorchTensor (tt_device output) (take len row))
  | None => Raise (IndexError "index is out of bounds for dimension 0")
  end.

(** The closure [convert_for_torch_backward], with the variable [Yt] it
    captures as a parameter. *)
Definition convert_for_torch_backward (Yt : list (list (torch_tensor Floats2d)))
    (dY : list (list Floats2d))
    : result (ArgsKwargs (list (torch_tensor Floats2d)) (list (torch_tensor Floats2d))) :=
  let Yt_flat := concat Yt in
  let dYt_flat := (λ y, xp2torch y None) <$> concat dY in
  if decide (length Yt_flat = length dYt_flat) then
    Ok (mkArgsKwargs [Yt_flat] {["grad_tensors" := dYt_flat]})
  else
    Raise AssertionError.

Definition _convert_outputs (model : Model)
    (inputs_outputs : list Ints1d * PyTorchTransformerOutput) (is_train : bool)
    : result (TransformerModelOutput
              * (list (list Floats2d) →
                 result (ArgsKwargs (list (torch_tensor Floats2d))
                                    (list (torch_tensor Floats2d))))) :=
  let '(model_inputs, model_outputs) := inputs_outputs in
  let ops := ops model in
  all_layer_outputs ← getitem_dict (attrs model) "_all_layer_outputs";
  let input_lens := shape0 <$> model_inputs in
  Yt ← (if all_layer_outputs : bool then
          mapM (λ '(i, len),
                  mapM (λ output, index_row_prefix output i len)
                       (all_outputs model_outputs))
               (enumerate input_lens)
        else
          mapM (λ '(i, len),
                  final ← getitem_last (all_outputs model_outputs);
                  y ← index_row_prefix final i len;
                  mret [y])
               (enumerate input_lens));
  let Y := fmap (M := list) (fmap (M := list) torch2xp) Yt in
  let output := {| outputs := Y; last_layer_only := negb all_layer_outputs |} in
  mret (output, convert_for_torch_backward Yt).
End ConvertOutputs.

Arguments PyTorchTransformerOutput : clear implicits.
Arguments TransformerModelOutput : clear implicits.

(** ** Model composition glue *)

Section Glue.
(** The state the wrapped layers read and write. *)
Context {St : Type}.
(** [TransformerInT], [TransformerOutT], the gradient of the output, what
    the wrapped layer's backprop returns, and the element type of the
    list the composed model's backprop returns. *)
Context {TransformerInT TransformerOutT GradT LayerGradT PieceGradT : Type}.
Context {TorchTransformerModelT Tok2PiecesModelT SpanExtractorModelT
         RemoveBosEosT ChainT : Type}.

(** A thinc model as its caller sees it: [layer(X, is_train=...)] returns
    the output and a backprop callback. *)
Record Layer : Type := {
  layer_call : TransformerInT → bool →
               M St (TransformerOutT * (GradT → M St LayerGradT))
}.

(** Combinators and accessors of thinc and of sibling modules. *)
Context (with_non_ws_tokens : ChainT → Layer)
        (chain : Tok2PiecesModelT → SpanExtractorModelT → RemoveBosEosT → ChainT)
        (remove_bos_eos : RemoveBosEosT)
        (get_dim : TorchTransformerModelT → string → result Z).

Inductive listener_callback : Type :=
  | replace_listener_callback
  | replace_listener_cfg_callback.

Record TransformerModel : Type := {
  tm_name : string;
  tm_layers : list Layer;
  tm_refs : gmap string (Tok2PiecesModelT + TorchTransformerModelT);
  tm_attrs : gmap string listener_callback;
  tm_dims : gmap string Z
}.

Definition build_transformer_model_v1
    (with_spans : TorchTransformerModelT → SpanExtractorModelT)
    (transformer : TorchTransformerModelT) (piece_encoder : Tok2PiecesModelT)
    : result TransformerModel :=
  let layers :=
    [with_non_ws_tokens
       (chain piece_encoder (with_spans transformer) remove_bos_eos)] in
  let refs : gmap string (Tok2PiecesModelT + TorchTransformerModelT) :=
    <["piece_encoder" := inl piece_encoder]>
      (<["transformer" := inr transformer]> ∅) in
  nO ← get_dim transformer "nO";
  mret {| tm_name := "transformer_model";
          tm_layers := layers;
          tm_refs := refs;
          tm_attrs := <["replace_listener" := replace_listener_callback]>
                        (<["replace_listener_cfg" := replace_listener_cfg_callback]> ∅);
          tm_dims := {["nO" := nO]} |}.

(** The closure [backprop] of [transformer_model_forward], with the
    variable [backprop_layer] it captures as a parameter. *)
Definition backprop (backprop_layer : GradT → M St LayerGradT) (dY : GradT)
    : M St (list PieceGradT) :=
  _ ← backprop_layer dY;
  mret [].

Definition transformer_model_forward (model : TransformerModel)
    (docs : TransformerInT) (is_train : bool)
    : M St (TransformerOutT * (GradT → M St (list PieceGradT))) :=
  layer0 ← lift (getitem (tm_layers model) 0);
  '(Y, backprop_layer) ← layer_call layer0 docs is_train;
  mret (Y, backprop backprop_layer).
End Glue.

(** ** Checkpoint loader *)

(** [thinc.api.get_torch_default_device] *)
Definition get_torch_default_device : torch_device := DefaultDevice.

Section CheckpointLoader.
(** Weight tensors, the encoder's architecture, filesystem paths, and the
    parts of the wrapper model and of its shim the loader never reads. *)
Context {Tensor Config Path ModelRest ShimRest PyAny : Type}.

(** What a torch module can change about itself. *)
Record module_state : Type := {
  ms_weights : gmap string Tensor;
  ms_device : torch_device
}.

Record encoder_obj : Type := {
  enc_config : Config;
  enc_state : module_state
}.

(** Heap objects; fields that hold objects hold their addresses. *)
Inductive obj : Type :=
  | ObjModel (shims : list positive) (rest : ModelRest)
  | ObjShim (_model : positive) (rest : ShimRest)
  | ObjEncoder (e : encoder_obj).

(** torch and curated_transformers entry points. The two module methods
    act on the state of the module they are called on. *)
Context (torch_load : Path → torch_device → result (gmap string Tensor))
        (convert_pretrained_model_for_encoder :
           encoder_obj → gmap string Tensor → result (gmap string Tensor))
        (load_state_dict : Config → gmap string Tensor → M module_state unit)
        (module_to : Config → torch_device → M module_state unit).

(** [model.shims] *)
Definition get_shims (model : positive) : M (gmap positive obj) (list positive) :=
  λ h, match h !! model with
       | Some (ObjModel shims _) => (Ok shims, h)
       | _ => (Raise (AttributeError "shims"), h)
       end.

(** [shim._model] *)
Definition get_shim_model (shim : positive) : M (gmap positive obj) positive :=
  λ h, match h !! shim with
       | Some (ObjShim m _) => (Ok m, h)
       | _ => (Raise (AttributeError "_model"), h)
       end.

(** The module an address refers to. *)
Definition deref_encoder (encoder : positive) : M (gmap positive obj) encoder_obj :=
  λ h, match h !! encoder with
       | Some (ObjEncoder e) => (Ok e, h)
       | _ => (Raise (AttributeError "Module"), h)
       end.

(** [encoder.method(...)]: run a module method on the module stored at
    [encoder] and store the module's new state. *)
Definition call_method {A : Type} (encoder : positive)
    (method : Config → M module_state A) : M (gmap positive obj) A :=
  λ h, match h !! encoder with
       | Some (ObjEncoder e) =>
           let '(r, ms) := method (enc_config e) (enc_state e) in
           (r, <[encoder := ObjEncoder {| enc_config := enc_config e;
                                          enc_state := ms |}]> h)
       | _ => (Raise (AttributeError "Module"), h)
       end.

(** The callback [load] of [build_pytorch_checkpoint_loader_v1], with the
    variable [path] it captures as a parameter. *)
Definition load (path : Path) (model : positive) (X Y : option PyAny)
    : M (gmap positive obj) positive :=
  shims ← get_shims model;
  shim0 ← lift (getitem shims 0);
  encoder ← get_shim_model shim0;
  let device := get_torch_default_device in
  params ← lift (torch_load path device);
  encoder_now ← deref_encoder encoder;
  params ← lift (convert_pretrained_model_for_encoder encoder_now params);
  _ ← call_method encoder (λ cfg, load_state_dict cfg params);
  _ ← call_method encoder (λ cfg, module_to cfg device);
  mret model.

Definition build_pytorch_checkpoint_loader_v1 (path : Path)
    : positive → option PyAny → option PyAny → M (gmap positive obj) positive :=
  load path.
End CheckpointLoader.

(** ** Gradient-scaler configuration of the PyTorch encoder wrapper *)

Section PytorchEncoder.
(** Configuration values other than booleans. *)
Context {V : Type}.

Inductive py_value : Type :=
  | PyBool (b : bool)
  | PyOther (v : V).

(** A [dict] argument is either spaCy's immutable [SimpleFrozenDict] or
    an ordinary dictionary. *)
Inductive py_dict : Type :=
  | SimpleFrozenDict (items : gmap string py_value)
  | Dict (items : gmap string py_value).

Definition dict_items (d : py_dict) : gmap string py_value :=
  match d with
  | SimpleFrozenDict items => items
  | Dict items => items
  end.

(** [isinstance(d, SimpleFrozenDict)] *)
Definition is_SimpleFrozenDict (d : py_dict) : bool :=
  match d with
  | SimpleFrozenDict _ => true
  | Dict _ => false
  end.

(** The properties of the curated encoder the wrapper reads. *)
Record CuratedEncoder : Type := {
  enc_max_seq_len : Z;
  enc_padding_idx : Z
}.

(** A gradient scaler: its [enabled] setting and the other keyword
    arguments it was constructed with. *)
Record PyTorchGradScaler : Type := {
  scaler_enabled : py_value;
  scaler_options : gmap string py_value
}.

(** The names of the keyword parameters that thinc's [PyTorchGradScaler]
    constructor declares besides [enabled]. *)
Context (scaler_keywords : gset string).

(** The constructor [PyTorchGradScaler], called with the dictionary as
    its keyword arguments: a keyword it does not declare is a [TypeError];
    [enabled] defaults to [False]. *)
Definition new_PyTorchGradScaler (kwargs : gmap string py_value)
    : result PyTorchGradScaler :=
  if decide (dom kwargs ⊆ {["enabled"]} ∪ scaler_keywords) then
    Ok {| scaler_enabled := default (PyBool false) (kwargs !! "enabled");
          scaler_options := delete "enabled" kwargs |}
  else
    Raise (TypeError "__init__() got an unexpected keyword argument").

(** The wrapper [PyTorchWrapper_v2] builds, with the keyword arguments
    bound into [convert_inputs] by [partial]. *)
Record PyTorchWrapper : Type := {
  pw_encoder : CuratedEncoder;
  pw_max_model_seq_len : Z;
  pw_padding_idx : Z;
  pw_mixed_precision : bool;
  pw_grad_scaler : PyTorchGradScaler;
  pw_dims : gmap string Z;
  pw_attrs : gmap string bool
}.

(** The default of the keyword argument [grad_scaler_config]. *)
Definition default_grad_scaler_config : py_dict := SimpleFrozenDict ∅.

(** The dictionary that reaches the scaler. When the caller passed an
    ordinary dictionary without ["enabled"], the source writes the key into
    that very dictionary; the embedding keeps the resulting contents. *)
Definition _pytorch_encoder (encoder : CuratedEncoder) (hidden_width : Z)
    (mixed_precision : bool) (grad_scaler_config : py_dict) : result PyTorchWrapper :=
  let grad_scaler_config : gmap string py_value :=
    if is_SimpleFrozenDict grad_scaler_config then ∅
    else dict_items grad_scaler_config in
  let grad_scaler_config :=
    if decide (grad_scaler_config !! "enabled" = None) then
      <["enabled" := PyBool mixed_precision]> grad_scaler_config
    else grad_scaler_config in
  grad_scaler ← new_PyTorchGradScaler grad_scaler_config;
  mret {| pw_encoder := encoder;
          pw_max_model_seq_len := enc_max_seq_len encoder;
          pw_padding_idx := enc_padding_idx encoder;
          pw_mixed_precision := mixed_precision;
          pw_grad_scaler := grad_scaler;
          pw_dims := {["nO" := hidden_width]};
          pw_attrs := {["_all_layer_outputs" := true]} |}.
End PytorchEncoder.

Arguments py_value : clear implicits.
Arguments py_dict : clear implicits.
Arguments PyTorchGradScaler : clear implicits.
Arguments PyTorchWrapper : clear implicits.

(** ** TorchScript encoder wrapper and the bound converters *)

(** The wrapper [TorchScriptWrapper_v1] builds, as the keyword arguments
    bound into [convert_inputs] by [partial]. Unlike [_pytorch_encoder],
    the source sets no dimension and no attribute on it. *)
Record TorchScriptWrapper : Type := {
  ts_max_model_seq_len : Z;
  ts_padding_idx : Z
}.

Definition _torchscript_encoder (model_max_length padding_idx : Z) : TorchScriptWrapper :=
  {| ts_max_model_seq_len := model_max_length;
     ts_padding_idx := padding_idx |}.

Section BoundConverters.
Context {float : Type} (fzero : float) {PyAny V : Type}.

(** Calling the [partial] stored as [convert_inputs] of a PyTorch wrapper:
    [_convert_inputs] with the two bound keyword arguments. *)
Definition pytorch_convert_inputs (w : PyTorchWrapper V) (model : Model)
    (X : list Ints1d) (is_train : bool)
    : M alloc_log (ArgsKwargs (torch_tensor Ints2d) Empty_set
                   * (PyAny → M alloc_log (list (list float)))) :=
  _convert_inputs fzero model X is_train (pw_max_model_seq_len w) (pw_padding_idx w).

(** The same for a TorchScript wrapper. *)
Definition torchscript_convert_inputs (w : TorchScriptWrapper) (model : Model)
    (X : list Ints1d) (is_train : bool)
    : M alloc_log (ArgsKwargs (torch_tensor Ints2d) Empty_set
                   * (PyAny → M alloc_log (list (list float)))) :=
  _convert_inputs fzero model X is_train (ts_max_model_seq_len w) (ts_padding_idx w).

(** A PyTorch wrapper as the converters read it, under the ops in force. *)
Definition pytorch_wrapper_model (o : Ops) (w : PyTorchWrapper V) : Model :=
  {| ops := o; attrs := pw_attrs w |}.
End BoundConverters.

(** ** Initialization of the composed model *)

Section GlueEntryPoints.
Context {St : Type}.
Context {TransformerInT TransformerOutT GradT LayerGradT : Type}.
Context {TorchTransformerModelT Tok2PiecesModelT SpanExtractorModelT
         RemoveBosEosT ChainT : Type}.

Abbreviation glue_layer :=
  (Layer (St := St) (TransformerInT := TransformerInT)
         (TransformerOutT := TransformerOutT) (GradT := GradT)
         (LayerGradT := LayerGradT)).
Abbreviation glue_model :=
  (TransformerModel (St := St) (TransformerInT := TransformerInT)
         (TransformerOutT := TransformerOutT) (GradT := GradT)
         (LayerGradT := LayerGradT)
         (TorchTransformerModelT := TorchTransformerModelT)
         (Tok2PiecesModelT := Tok2PiecesModelT)).

(** thinc's [Model.initialize] of a layer. *)
Context (initialize : glue_layer → option TransformerInT → option TransformerOutT →
                      M St unit).

Definition transformer_model_init (model : glue_model)
    (X : option TransformerInT) (Y : option TransformerOutT) : M St glue_model :=
  layer0 ← lift (getitem (tm_layers model) 0);
  _ ← initialize layer0 X Y;
  mret model.
End GlueEntryPoints.

(** ** Reference definitions used by the statements below *)

(** Row [x] padded to width [m] with [p]. *)
Definition padded (m : nat) (p : Z) (x : Ints1d) : Ints1d :=
  x ++ replicate (m - length x) p.

(** The body of the copy loop of [_convert_inputs]. *)
Definition pad_body (X : list Ints1d) (i : nat) (Xt : Ints2d) : M alloc_log Ints2d :=
  span ← lift (getitem X i);
  let span_len := shape0 span in
  lift (setitem_row_prefix Xt i span_len span).

(** The device the padded tensor is placed on. *)
Definition input_device (o : Ops) : torch_device :=
  if decide (device_type o = "gpu") then Cuda (device_id o) else DefaultDevice.

Section UnpadReference.
Context {float : Type}.

(** Row [i] of a layer tensor, cut to its first [len] timesteps. *)
Definition slice_row (t : torch_tensor (list (list (list float)))) (i len : nat)
    : torch_tensor (list (list float)) :=
  TorchTensor (tt_device t) (take len (default [] (tt_data t !! i))).

(** The layers a mode selects: all of them, or the final one alone. *)
Definition selected_layers (all_layer_outputs : bool)
    (out : PyTorchTransformerOutput float) : list (torch_tensor (list (list (list float)))) :=
  if all_layer_outputs then all_outputs out
  else option_list (last (all_outputs out)).

(** Per document, in input order, its slice of every selected layer, in
    layer order. *)
Definition retained (all_layer_outputs : bool) (X : list Ints1d)
    (out : PyTorchTransformerOutput float)
    : list (list (torch_tensor (list (list float)))) :=
  imap (λ i x, (λ t, slice_row t i (length x)) <$> selected_layers all_layer_outputs out) X.

Definition unpadded (all_layer_outputs : bool) (X : list Ints1d)
    (out : PyTorchTransformerOutput float) : list (list (list (list float))) :=
  fmap (M := list) (fmap (M := list) torch2xp) (retained all_layer_outputs X out).

(** What the encoder returns for [N] sequences padded to [S] timesteps:
    one tensor per hidden layer and one for the embeddings, each with
    [N] rows of [S] timesteps. *)
Definition encoder_output_for (num_hidden_layers N S : nat)
    (out : PyTorchTransformerOutput float) : Prop :=
  length (all_outputs out) = num_hidden_layers + 1
  ∧ Forall (λ t, length (tt_data t) = N
                 ∧ Forall (λ row, length row = S) (tt_data t))
           (all_outputs out).
End UnpadReference.

(** ** Concrete inputs *)

Module Demo.
Definition cpu_model : Model :=
  {| ops := {| device_type := "cpu"; device_id := 0 |}; attrs := ∅ |}.

(** Two documents of three and five pieces. *)
Definition batch : list (list Z) := [[11; 12; 13]; [21; 22; 23; 24; 25]]%Z.

(** A batch of two and one pieces, and a one-layer encoder's output for
    it: embeddings and one hidden layer, two timesteps, width one. *)
Definition short_batch : list (list Z) := [[7; 8]; [9]]%Z.

Definition encoder_output : PyTorchTransformerOutput Z :=
  {| all_outputs := [TorchTensor DefaultDevice [[[1]; [2]]; [[3]; [4]]];
                     TorchTensor DefaultDevice [[[5]; [6]]; [[7]; [8]]]]%Z |}.

(** A heap with a wrapper model at 1, its shim at 2 and the encoder at 3. *)
Definition encoder0 : encoder_obj (Tensor := Z) (Config := unit) :=
  {| enc_config := tt;
     enc_state := {| ms_weights := {["embeddings.weight" := 0%Z]};
                     ms_device := Cuda 0 |} |}.

Definition heap0 : gmap positive (obj (Tensor := Z) (Config := unit)
                                      (ModelRest := unit) (ShimRest := unit)) :=
  <[1%positive := ObjModel [2%positive] tt]>
    (<[2%positive := ObjShim 3%positive tt]>
       (<[3%positive := ObjEncoder encoder0]> ∅)).

Definition checkpoint : gmap string Z := {["bert.embeddings.weight" := 42%Z]}.

Definition torch_load (path : string) (device : torch_device)
    : result (gmap string Z) :=
  if decide (path = "model.pt") then Ok checkpoint
  else Raise (ExternalError "No such file or directory").

Definition convert (e : encoder_obj (Tensor := Z) (Config := unit))
    (params : gmap string Z) : result (gmap string Z) :=
  match params !! "bert.embeddings.weight" with
  | Some w => Ok {["embeddings.weight" := w]}
  | None => Raise (ExternalError "missing key")
  end.

(** A strict [load_state_dict]: the keys must be the module's own. *)
Definition load_state_dict (cfg : unit) (params : gmap string Z)
    : M (module_state (Tensor := Z)) unit :=
  λ ms, if decide (dom params = dom (ms_weights ms)) then
          (Ok (), {| ms_weights := params; ms_device := ms_device ms |})
        else (Raise (ExternalError "Error(s) in loading state_dict"), ms).

Definition module_to (cfg : unit) (device : torch_device)
    : M (module_state (Tensor := Z)) unit :=
  λ ms, (Ok (), {| ms_weights := ms_weights ms; ms_device := device |}).

(** A wrapped layer over a call counter: the output is the input, the
    backprop callback returns its gradient. *)
Definition counting_layer (c : nat) : Layer (St := nat) (TransformerInT := nat)
    (TransformerOutT := nat) (GradT := nat) (LayerGradT := nat) :=
  {| layer_call := λ docs is_train s,
       (Ok (docs + c, λ dY t, (Ok dY, S t)), S s) |}.

Definition chain (piece_encoder spans remove : nat) : nat :=
  piece_encoder + spans + remove.

Definition get_dim (transformer : nat) (name : string) : result Z :=
  if decide (name = "nO") then Ok 768%Z else Raise (KeyError name).

(** A frozen configuration that asks for an enabled scaler, and the same
    entries in an ordinary dictionary. *)
Definition frozen_config : py_dict unit :=
  SimpleFrozenDict {["enabled" := PyBool true]}.

Definition plain_enabled_config : py_dict unit :=
  Dict {["enabled" := PyBool true]}.

(** The keyword parameters of the gradient scaler besides [enabled]. *)
Definition scaler_keywords : gset string :=
  {["init_scale"; "backoff_factor"; "growth_factor"; "growth_interval"]}.

Definition bert_encoder : CuratedEncoder :=
  {| enc_max_seq_len := 512; enc_padding_idx := 0 |}.
End Demo.

(** ** Further reference definitions *)

(** Outcome of [_convert_inputs], read off its three exits. *)
Definition convert_inputs_outcome {float PyAny : Type} (fzero : float) (model : Model)
    (X : list (list Z)) (max_model_seq_len padding_idx : Z) (log : list alloc_event)
    : result (ArgsKwargs (torch_tensor (list (list Z))) Empty_set
              * (PyAny → M (list alloc_event) (list (list float))))
      * list alloc_event :=
  match X with
  | [] => (Raise (ValueError max_empty_msg), log)
  | _ :: _ =>
      let m := max_list (length <$> X) in
      if decide (max_model_seq_len < Z.of_nat m)%Z then
        (Raise (ValueError (seq_too_long_msg m max_model_seq_len)), log)
      else
        (Ok (mkArgsKwargs
               [TorchTensor (input_device (ops model)) (padded m padding_idx <$> X)] ∅,
             convert_from_torch_backward fzero X),
         log ++ [AllocFull (length X) m padding_idx])
  end.

(** Two layer tensors agree on document [i] of length [len]: they are on the
    same device and row [i], cut to [len] timesteps, is the same in both,
    or missing in both. *)
Definition agree_on_documents {float : Type} (X : list (list Z))
    (t1 t2 : torch_tensor (list (list (list float)))) : Prop :=
  tt_device t1 = tt_device t2
  ∧ ∀ i x, X !! i = Some x →
      take (length x) <$> (tt_data t1 !! i) = take (length x) <$> (tt_data t2 !! i).

(** An encoder that returns, for a padded batch of any shape, one tensor
    per hidden layer plus one for the embeddings, each of the batch's
    shape. *)
Definition shape_preserving {float : Type} (num_hidden_layers : nat)
    (encode : torch_tensor (list (list Z)) → PyTorchTransformerOutput float) : Prop :=
  ∀ Xt N S,
    length (tt_data Xt) = N →
    Forall (λ row, length row = S) (tt_data Xt) →
    encoder_output_for num_hidden_layers N S (encode Xt).

Module Sample.
(** An encoder with one hidden layer and width one: the embedding of a
    piece is its id, the hidden layer doubles it. *)
Definition encode (Xt : torch_tensor (list (list Z))) : PyTorchTransformerOutput Z :=
  {| all_outputs :=
       [TorchTensor (tt_device Xt) (fmap (M := list) (fmap (M := list) (λ v, [v])) (tt_data Xt));
        TorchTensor (tt_device Xt)
          (fmap (M := list) (fmap (M := list) (λ v, [2 * v])%Z) (tt_data Xt))] |}.

(** The output of [Demo.encoder_output] with other values at the one
    padding timestep, the second timestep of the second document. *)
Definition encoder_output_other_padding : PyTorchTransformerOutput Z :=
  {| all_outputs := [TorchTensor DefaultDevice [[[1]; [2]]; [[3]; [40]]];
                     TorchTensor DefaultDevice [[[5]; [6]]; [[7]; [80]]]]%Z |}.

(** An encoder output whose tensors have a single timestep. *)
Definition clipped_output : PyTorchTransformerOutput Z :=
  {| all_outputs := [TorchTensor DefaultDevice [[[1]]; [[3]]];
                     TorchTensor DefaultDevice [[[5]]; [[7]]]]%Z |}.

(** An encoder output whose first tensor lacks the second document. *)
Definition short_rows_output : PyTorchTransformerOutput Z :=
  {| all_outputs := [TorchTensor DefaultDevice [[[1]; [2]]];
                     TorchTensor DefaultDevice [[[5]; [6]]; [[7]; [8]]]]%Z |}.

Definition gpu_model : Model :=
  {| ops := {| device_type := "gpu"; device_id := 1 |}; attrs := ∅ |}.

Definition plain_config : py_dict Z :=
  Dict (<["init_scale" := PyOther 65536%Z]> (<["enabled" := PyBool true]> ∅)).

(** A layer whose forward and backprop count their calls, with an
    [initialize] that fails on a layer that was given no sample input. *)
Definition initialize (layer : Layer (St := nat) (TransformerInT := nat)
      (TransformerOutT := nat) (GradT := nat) (LayerGradT := nat))
    (X Y : option nat) : M nat unit :=
  λ s, match X with
       | Some _ => (Ok (), S s)
       | None => (Raise (ValueError "no sample input"), s)
       end.

(** A layer whose backprop callback fails. *)
Definition failing_backprop_layer (c : nat) : Layer (St := nat) (TransformerInT := nat)
    (TransformerOutT := nat) (GradT := nat) (LayerGradT := nat) :=
  {| layer_call := λ docs is_train s,
       (Ok (docs + c, λ dY t, (Raise (ExternalError "backward failed"), S t)), S s) |}.

(** A [load_state_dict] that stores the keys it knows and then reports the
    others. *)
Definition lenient_load_state_dict (cfg : unit) (params : gmap string Z)
    : M (module_state (Tensor := Z)) unit :=
  λ ms, (Raise (ExternalError "Unexpected key(s) in state_dict"),
         {| ms_weights := params ∪ ms_weights ms; ms_device := ms_device ms |}).

(** A hand-made model without layers. *)
Definition model_without_layers : TransformerModel (St := nat) (TransformerInT := nat)
    (TransformerOutT := nat) (GradT := nat) (LayerGradT := nat)
    (TorchTransformerModelT := nat) (Tok2PiecesModelT := nat) :=
  {| tm_name := "transformer_model"; tm_layers := [];
     tm_refs := ∅; tm_attrs := ∅; tm_dims := ∅ |}.

(** A heap whose model has no shims. *)
Definition heap_no_shims : gmap positive (obj (Tensor := Z) (Config := unit)
                                              (ModelRest := unit) (ShimRest := unit)) :=
  {[1%positive := ObjModel [] tt]}.
End Sample.

(** * Properties *)

(** ** Running computations *)

Lemma run_bind {St A B : Type} (m : M St A) (f : A → M St B) (s : St) :
  (m ≫= f) s = match m s with
               | (Ok a, s') => f a s'
               | (Raise e, s') => (Raise e, s')
               end.
Proof. reflexivity. Qed.

Lemma run_ret {St A : Type} (a : A) (s : St) : (mret a : M St A) s = (Ok a, s).
Proof. reflexivity. Qed.

Lemma run_lift {St A : Type} (r : result A) (s : St) : (lift r : M St A) s = (r, s).
Proof. reflexivity. Qed.

Lemma result_bind_ok {A B : Type} (a : A) (f : A → result B) : (Ok a ≫= f) = f a.
Proof. reflexivity. Qed.

Lemma result_bind_inv {A B : Type} (r : result A) (f : A → result B) (b : B) :
  r ≫= f = Ok b → ∃ a, r = Ok a ∧ f a = Ok b.
Proof. destruct r as [a|e]; [eauto | discriminate]. Qed.

(** ** The builtin [max] *)

Lemma foldl_max_max_list (l : list nat) (a : nat) :
  foldl Nat.max a l = a `max` max_list l.
Proof.
  revert a. induction l as [|x l IH]; intros a; simpl.
  - lia.
  - rewrite IH. lia.
Qed.

Lemma py_max_cons (x : nat) (l : list nat) : py_max (x :: l) = Ok (max_list (x :: l)).
Proof. simpl. by rewrite foldl_max_max_list. Qed.

Lemma py_max_nonempty (l : list nat) : l ≠ [] → py_max l = Ok (max_list l).
Proof. destruct l; [done | intros _; apply py_max_cons]. Qed.

Lemma max_list_attained (l : list nat) : l ≠ [] → max_list l ∈ l.
Proof.
  induction l as [|x l IH]; [done | intros _].
  destruct l as [|y l].
  - simpl. rewrite Nat.max_0_r. apply list_elem_of_here.
  - change (max_list (x :: y :: l)) with (x `max` max_list (y :: l)).
    destruct (Nat.max_spec x (max_list (y :: l))) as [[_ ->]|[_ ->]].
    + apply list_elem_of_further, IH. done.
    + apply list_elem_of_here.
Qed.

(** ** Padding *)

Lemma length_padded (m : nat) (p : Z) (x : Ints1d) :
  length x ≤ m → length (padded m p x) = m.
Proof. intros H. unfold padded. rewrite length_app, length_replicate. lia. Qed.

Lemma setitem_row_prefix_fresh (done_rows : Ints2d) (todo : nat) (m : nat) (p : Z)
    (span : Ints1d) :
  length span ≤ m →
  setitem_row_prefix (done_rows ++ replicate (S todo) (replicate m p))
                     (length done_rows) (shape0 span) span
  = Ok ((done_rows ++ [padded m p span]) ++ replicate todo (replicate m p)).
Proof.
  intros Hle. unfold setitem_row_prefix, shape0.
  rewrite lookup_app_r by lia. rewrite Nat.sub_diag. simpl.
  rewrite length_replicate, Nat.min_l by done.
  rewrite decide_True by done.
  rewrite insert_app_r_alt by lia. rewrite Nat.sub_diag. simpl.
  rewrite drop_replicate. unfold padded. by rewrite <- app_assoc.
Qed.

Section PadLoop.
Context (X : list Ints1d) (m : nat) (p : Z).
Hypothesis fits : Forall (λ x, length x ≤ m) X.

(** Once rows [0 .. start) are written, the remaining [n] iterations
    write the other rows and never fail. *)
Lemma pad_loop_from (n start : nat) (log : alloc_log) :
  start + n = length X →
  for_range_from start n (pad_body X)
    ((padded m p <$> take start X) ++ replicate n (replicate m p)) log
  = (Ok (padded m p <$> X), log).
Proof.
  revert start. induction n as [|n IH]; intros start Hlen.
  - simpl. rewrite run_ret, app_nil_r, take_ge by lia. done.
  - destruct (lookup_lt_is_Some_2 X start) as [span Hspan]; [lia|].
    cbn [for_range_from]. rewrite run_bind. unfold pad_body at 1.
    rewrite run_bind, run_lift. unfold getitem. rewrite Hspan, run_lift.
    assert (length (padded m p <$> take start X) = start) as Hdone
      by (rewrite length_fmap, length_take; lia).
    rewrite <- Hdone at 2.
    rewrite setitem_row_prefix_fresh
      by (eapply (Forall_lookup_1 _ _ _ _ fits Hspan)).
    rewrite <- (IH (S start)) by lia.
    by rewrite (take_S_r _ _ _ Hspan), fmap_app.
Qed.

Lemma pad_loop (log : alloc_log) :
  for_range (length X) (pad_body X) (replicate (length X) (replicate m p)) log
  = (Ok (padded m p <$> X), log).
Proof. apply (pad_loop_from (length X) 0 log). done. Qed.
End PadLoop.

Section ConvertInputsFacts.
Context {float : Type} (fzero : float) {PyAny : Type}.

Abbreviation convert_inputs := (_convert_inputs (PyAny := PyAny) fzero).

(** On a batch that fits, the result is the batch padded to its longest
    sequence, and one buffer was allocated. *)
Lemma convert_inputs_fits (model : Model) (X : list Ints1d) (is_train : bool)
    (max_model_seq_len padding_idx : Z) (log : alloc_log) :
  X ≠ [] →
  Forall (λ x, (Z.of_nat (length x) ≤ max_model_seq_len)%Z) X →
  let m := max_list (length <$> X) in
  convert_inputs model X is_train max_model_seq_len padding_idx log
  = (Ok (mkArgsKwargs
           [TorchTensor (input_device (ops model)) (padded m padding_idx <$> X)] ∅,
         convert_from_torch_backward fzero X),
     log ++ [AllocFull (length X) m padding_idx]).
Proof.
  intros Hne Hfit m. unfold _convert_inputs.
  assert (m ∈ length <$> X) as Hm
    by (apply max_list_attained; by destruct X).
  apply list_elem_of_fmap in Hm as (xm & Hxm & Hin).
  rewrite run_bind, run_lift.
  change (size <$> X) with (length <$> X).
  rewrite py_max_nonempty by (by destruct X). fold m.
  rewrite decide_False.
  2:{ rewrite Forall_forall in Hfit. specialize (Hfit _ Hin). lia. }
  rewrite run_bind. unfold xp_full at 1.
  rewrite run_bind.
  change (λ (i : nat) (Xt : Ints2d), _) with (pad_body X).
  rewrite (pad_loop X m padding_idx).
  2:{ apply Forall_forall. intros x Hx.
      apply (max_list_elem_of_le (length x) (length <$> X)).
      apply list_elem_of_fmap. eauto. }
  rewrite run_ret. unfold input_device, xp2torch.
  by destruct (decide (device_type (ops model) = "gpu")).
Qed.
End ConvertInputsFacts.

Section ConvertInputsClaims.
Context {float : Type} (fzero : float) {PyAny : Type}.

Abbreviation convert_inputs := (_convert_inputs (PyAny := PyAny) fzero).

Lemma padded_lookup_pad (m : nat) (p : Z) (x : Ints1d) (j : nat) :
  length x ≤ j < m → padded m p x !! j = Some p.
Proof.
  intros [Hlo Hhi]. unfold padded.
  rewrite lookup_app_r by done. apply lookup_replicate_2. lia.
Qed.

Lemma take_padded (m : nat) (p : Z) (x : Ints1d) :
  take (length x) (padded m p x) = x.
Proof. unfold padded. by rewrite take_app_length. Qed.

(** C1. For a non-empty batch of N sequences, none longer than
    [max_model_seq_len], [_convert_inputs] returns a tensor with N rows,
    each as long as the longest sequence; row [i] starts with sequence
    [i], in order, and holds [padding_idx] everywhere after it. *)
Theorem convert_inputs_pads_batch (model : Model) (X : list Ints1d)
    (is_train : bool) (max_model_seq_len padding_idx : Z) (log : list alloc_event) :
  X ≠ [] →
  Forall (λ x, (Z.of_nat (length x) ≤ max_model_seq_len)%Z) X →
  ∃ Xt bwd log',
    convert_inputs model X is_train max_model_seq_len padding_idx log
    = (Ok (mkArgsKwargs [Xt] ∅, bwd), log')
    ∧ length (tt_data Xt) = length X
    ∧ Forall (λ row, length row = max_list (length <$> X)) (tt_data Xt)
    ∧ ∀ i x, X !! i = Some x →
        ∃ row, tt_data Xt !! i = Some row
               ∧ take (length x) row = x
               ∧ ∀ j, length x ≤ j < max_list (length <$> X) →
                      row !! j = Some padding_idx.
Proof.
  intros Hne Hfit.
  pose proof (convert_inputs_fits fzero (PyAny := PyAny) model X is_train
                max_model_seq_len padding_idx log Hne Hfit) as Hrun.
  cbv zeta in Hrun.
  set (m := max_list (length <$> X)) in *.
  assert (∀ x, x ∈ X → length x ≤ m) as Hle.
  { intros x Hx. apply (max_list_elem_of_le (length x) (length <$> X)).
    apply list_elem_of_fmap. eauto. }
  eexists _, _, _. split; [exact Hrun|]. simpl. split; [|split].
  - by rewrite length_fmap.
  - apply Forall_fmap, Forall_forall. intros x Hx. simpl.
    apply length_padded, Hle, Hx.
  - intros i x Hx. exists (padded m padding_idx x). split; [|split].
    + by rewrite list_lookup_fmap, Hx.
    + apply take_padded.
    + intros j Hj. by apply padded_lookup_pad.
Qed.

(** C2. When some sequence of the batch is longer than
    [max_model_seq_len], [_convert_inputs] raises the sequence-too-long
    [ValueError], whose message names the longest length and the limit,
    and the allocation log is left as it was: no buffer was created. *)
Theorem convert_inputs_rejects_long (model : Model) (X : list Ints1d)
    (is_train : bool) (max_model_seq_len padding_idx : Z) (log : list alloc_event) :
  Exists (λ x, (max_model_seq_len < Z.of_nat (length x))%Z) X →
  convert_inputs model X is_train max_model_seq_len padding_idx log
  = (Raise (ValueError (seq_too_long_msg (max_list (length <$> X)) max_model_seq_len)),
     log).
Proof.
  intros Hlong. apply Exists_exists in Hlong as (x & Hx & Hlen).
  assert (X ≠ []) as Hne by (intros ->; by apply elem_of_nil in Hx).
  assert (length x ≤ max_list (length <$> X)) as Hle.
  { apply (max_list_elem_of_le (length x) (length <$> X)).
    apply list_elem_of_fmap. eauto. }
  unfold _convert_inputs. rewrite run_bind, run_lift.
  change (size <$> X) with (length <$> X).
  rewrite py_max_nonempty by (by destruct X).
  rewrite decide_True by lia. done.
Qed.

(** C9. On the empty batch [_convert_inputs] fails in [max], with the
    builtin's [ValueError], before the length check and before any
    allocation; it does not return a tensor without rows. *)
Theorem convert_inputs_empty_batch (model : Model) (is_train : bool)
    (max_model_seq_len padding_idx : Z) (log : list alloc_event) :
  convert_inputs model [] is_train max_model_seq_len padding_idx log
  = (Raise (ValueError max_empty_msg), log).
Proof. reflexivity. Qed.

Lemma backward_zero_buffers (X : list Ints1d) (d_inputs : PyAny)
    (log : list alloc_event) :
  convert_from_torch_backward fzero X d_inputs log
  = (Ok ((λ x, replicate (length x) fzero) <$> X),
     log ++ ((λ x, Alloc1f (length x)) <$> X)).
Proof.
  unfold convert_from_torch_backward. revert log.
  induction X as [|x X IH]; intros log.
  - simpl. by rewrite run_ret, app_nil_r.
  - cbn [mapM]. rewrite run_bind. unfold alloc1f at 1.
    rewrite run_bind, IH, run_ret. simpl.
    by rewrite <- app_assoc.
Qed.

Lemma convert_inputs_closure (model : Model) (X : list Ints1d)
    (is_train : bool) (max_model_seq_len padding_idx : Z) (log log' : list alloc_event)
    out bwd :
  convert_inputs model X is_train max_model_seq_len padding_idx log
  = (Ok (out, bwd), log') →
  bwd = convert_from_torch_backward fzero X.
Proof.
  unfold _convert_inputs. rewrite run_bind, run_lift.
  destruct (py_max (size <$> X)) as [m|e]; [|discriminate].
  destruct (decide _); [discriminate|].
  rewrite run_bind. unfold xp_full at 1. rewrite run_bind.
  destruct (for_range _ _ _ _) as [[Xt|e] log2]; [|discriminate].
  rewrite run_ret. congruence.
Qed.

(** C5. Whenever the forward pass of the pad conversion has returned its
    backward closure, that closure returns, for every gradient argument,
    one buffer per input sequence, in input order; buffer [i] has the
    length of sequence [i] and every entry of it is zero. *)
Theorem convert_from_torch_backward_zeros (model : Model) (X : list Ints1d)
    (is_train : bool) (max_model_seq_len padding_idx : Z) (log log' : list alloc_event)
    out bwd :
  convert_inputs model X is_train max_model_seq_len padding_idx log
  = (Ok (out, bwd), log') →
  ∀ (d_inputs : PyAny) (log1 : list alloc_event),
    ∃ grads log2,
      bwd d_inputs log1 = (Ok grads, log2)
      ∧ length grads = length X
      ∧ (∀ i x, X !! i = Some x →
           ∃ g, grads !! i = Some g
                ∧ length g = length x
                ∧ Forall (λ v, v = fzero) g).
Proof.
  intros Hfwd d_inputs log1.
  rewrite (convert_inputs_closure _ _ _ _ _ _ _ _ _ Hfwd).
  eexists _, _. split; [apply backward_zero_buffers|]. split.
  - by rewrite length_fmap.
  - intros i x Hx. exists (replicate (length x) fzero). split; [|split].
    + by rewrite list_lookup_fmap, Hx.
    + apply length_replicate.
    + apply Forall_replicate. done.
Qed.
End ConvertInputsClaims.

(** ** Un-padding *)

Lemma mapM_result_ok {A B : Type} (f : A → result B) (g : A → B) (l : list A) :
  (∀ x, x ∈ l → f x = Ok (g x)) → mapM f l = Ok (g <$> l).
Proof.
  induction l as [|x l IH]; intros Hf; [done|].
  cbn [mapM]. rewrite (Hf x) by apply list_elem_of_here.
  rewrite result_bind_ok, IH by (intros y Hy; apply Hf; by apply list_elem_of_further).
  done.
Qed.

Lemma elem_of_enumerate {A : Type} (l : list A) (i : nat) (x : A) :
  (i, x) ∈ enumerate l ↔ l !! i = Some x.
Proof.
  unfold enumerate. rewrite elem_of_lookup_imap. split.
  - intros (j & y & [= -> ->] & Hy). done.
  - intros Hx. eauto.
Qed.

Lemma enumerate_fmap_imap {A B C : Type} (f : A → B) (g : nat * B → C) (l : list A) :
  g <$> enumerate (f <$> l) = imap (λ i x, g (i, f x)) l.
Proof. unfold enumerate. rewrite imap_fmap, fmap_imap. done. Qed.

Lemma concat_fmap_fmap {A B : Type} (f : A → B) (ls : list (list A)) :
  concat (fmap (M := list) (fmap (M := list) f) ls) = f <$> concat ls.
Proof.
  induction ls as [|l ls IH]; [done|].
  rewrite fmap_cons. cbn [concat]. by rewrite IH, fmap_app.
Qed.

Lemma zip_concat {A B : Type} (xs : list (list A)) (ys : list (list B)) :
  length <$> xs = length <$> ys →
  zip (concat xs) (concat ys) = concat (zip_with zip xs ys).
Proof.
  revert ys. induction xs as [|x xs IH]; intros [|y ys] Hlen; try done.
  simpl in *. injection Hlen as Hxy Hrest.
  rewrite zip_with_app by done. by rewrite IH.
Qed.

Section ConvertOutputsFacts.
Context {float : Type}.

Lemma index_row_prefix_ok (t : torch_tensor (list (list (list float)))) (i len : nat) :
  i < length (tt_data t) → index_row_prefix t i len = Ok (slice_row t i len).
Proof.
  intros Hi. unfold index_row_prefix, slice_row.
  destruct (lookup_lt_is_Some_2 (tt_data t) i Hi) as [row ->]. done.
Qed.

(** When the mode flag is set, every layer has a row per document and,
    in last-layer mode, there is a layer at all, [_convert_outputs]
    returns the reference un-padding and retains the torch slices. *)
Lemma convert_outputs_run (model : Model) (X : list Ints1d)
    (out : PyTorchTransformerOutput float) (is_train b : bool) :
  attrs model !! "_all_layer_outputs" = Some b →
  Forall (λ t, length X ≤ length (tt_data t)) (all_outputs out) →
  all_outputs out ≠ [] →
  _convert_outputs model (X, out) is_train
  = Ok ({| outputs := unpadded b X out; last_layer_only := negb b |},
        convert_for_torch_backward (retained b X out)).
Proof.
  intros Hattr Hrows Hlayers. unfold _convert_outputs, getitem_dict.
  rewrite Hattr, result_bind_ok.
  rewrite Forall_forall in Hrows.
  assert (∀ i len, (i, len) ∈ enumerate (shape0 <$> X) → i < length X) as Hidx.
  { intros i len Hin. apply elem_of_enumerate in Hin.
    apply lookup_lt_Some in Hin. by rewrite length_fmap in Hin. }
  destruct b.
  - rewrite (mapM_result_ok _
      (λ '(i, len), (λ t, slice_row t i len) <$> all_outputs out)).
    + rewrite result_bind_ok. unfold unpadded, retained, selected_layers.
      by rewrite enumerate_fmap_imap.
    + intros [i len] Hin. apply mapM_result_ok. intros t Ht.
      apply index_row_prefix_ok. specialize (Hrows t Ht).
      specialize (Hidx i len Hin). lia.
  - destruct (last (all_outputs out)) as [final|] eqn:Hlast.
    2:{ apply last_None in Hlast. done. }
    rewrite (mapM_result_ok _ (λ '(i, len), [slice_row final i len])).
    + rewrite result_bind_ok. unfold unpadded, retained, selected_layers.
      rewrite Hlast. by rewrite enumerate_fmap_imap.
    + intros [i len] Hin. unfold getitem_last. rewrite Hlast, result_bind_ok.
      rewrite index_row_prefix_ok; [done|].
      assert (final ∈ all_outputs out) as Hfinal.
      { apply list_elem_of_lookup. exists (length (all_outputs out) - 1).
        rewrite last_lookup in Hlast.
        by replace (length (all_outputs out) - 1) with (pred (length (all_outputs out))) by lia. }
      specialize (Hrows final Hfinal). specialize (Hidx i len Hin). lia.
Qed.

(** Whatever [_convert_outputs] returns, its closure is
    [convert_for_torch_backward] over the torch slices behind the
    returned arrays. *)
Lemma convert_outputs_closure (model : Model) (X : list Ints1d)
    (out : PyTorchTransformerOutput float) (is_train : bool) res bwd :
  _convert_outputs model (X, out) is_train = Ok (res, bwd) →
  ∃ Yt, bwd = convert_for_torch_backward Yt
        ∧ outputs res = fmap (M := list) (fmap (M := list) torch2xp) Yt.
Proof.
  unfold _convert_outputs. intros Hrun.
  apply result_bind_inv in Hrun as (b & _ & Hrun).
  apply result_bind_inv in Hrun as (Yt & _ & Hrun).
  injection Hrun as <- <-. eauto.
Qed.
End ConvertOutputsFacts.

Section ConvertOutputsClaims.
Context {float : Type}.

Lemma selected_layers_subset (b : bool) (out : PyTorchTransformerOutput float) t :
  t ∈ selected_layers b out → t ∈ all_outputs out.
Proof.
  destruct b; simpl; [done|].
  destruct (last (all_outputs out)) as [final|] eqn:Hlast; simpl.
  - intros ->%list_elem_of_singleton.
    rewrite last_lookup in Hlast. by apply list_elem_of_lookup_2 in Hlast.
  - by intros ?%elem_of_nil.
Qed.

Lemma length_selected_layers (b : bool) (out : PyTorchTransformerOutput float) :
  all_outputs out ≠ [] →
  length (selected_layers b out) = if b then length (all_outputs out) else 1.
Proof.
  intros Hne. destruct b; simpl; [done|].
  destruct (last (all_outputs out)) eqn:Hlast; [done|].
  by apply last_None in Hlast.
Qed.

Lemma unpadded_lookup (b : bool) (X : list Ints1d)
    (out : PyTorchTransformerOutput float) (i : nat) (x : list Z) :
  X !! i = Some x →
  unpadded b X out !! i
  = Some ((λ t, take (length x) (default [] (tt_data t !! i))) <$> selected_layers b out).
Proof.
  intros Hx. unfold unpadded, retained.
  rewrite list_lookup_fmap, list_lookup_imap, Hx. simpl.
  by rewrite <- list_fmap_compose.
Qed.

Lemma encoder_output_rows (num_hidden_layers N S : nat)
    (out : PyTorchTransformerOutput float) :
  encoder_output_for num_hidden_layers N S out →
  all_outputs out ≠ []
  ∧ ∀ t, t ∈ all_outputs out →
      length (tt_data t) = N ∧ ∀ i row, tt_data t !! i = Some row → length row = S.
Proof.
  intros [Hlayers Hshape]. split.
  - intros Hnil. rewrite Hnil in Hlayers. simpl in Hlayers. lia.
  - intros t Ht. rewrite Forall_forall in Hshape.
    destruct (Hshape t Ht) as [HN HS]. split; [done|].
    intros i row Hrow. by apply (Forall_lookup_1 _ _ _ _ HS Hrow).
Qed.

(** C3. Given the mode flag and an encoder output for the batch (one
    tensor per hidden layer plus the embedding layer, each with one row
    per sequence and at least as many timesteps as the longest sequence),
    [_convert_outputs] returns one list per input sequence, in input
    order; the list of document [i] holds, in layer order, row [i] of each
    selected layer cut to the length of sequence [i]; it has
    [num_hidden_layers + 1] entries in full mode and one entry in
    last-layer mode. *)
Theorem convert_outputs_unpads (num_hidden_layers S : nat) (model : Model)
    (X : list Ints1d) (out : PyTorchTransformerOutput float) (is_train b : bool) :
  attrs model !! "_all_layer_outputs" = Some b →
  encoder_output_for num_hidden_layers (length X) S out →
  Forall (λ x, length x ≤ S) X →
  ∃ res bwd,
    _convert_outputs model (X, out) is_train = Ok (res, bwd)
    ∧ length (outputs res) = length X
    ∧ ∀ i x, X !! i = Some x →
        ∃ layers,
          outputs res !! i = Some layers
          ∧ length layers = (if b then num_hidden_layers + 1 else 1)
          ∧ Forall (λ y, length y = length x) layers
          ∧ length layers = length (selected_layers b out)
          ∧ ∀ k t, selected_layers b out !! k = Some t →
              ∃ row, tt_data t !! i = Some row
                     ∧ layers !! k = Some (take (length x) row).
Proof.
  intros Hattr Hout Hfit.
  pose proof (encoder_output_rows _ _ _ _ Hout) as [Hne Hrows].
  destruct Hout as [Hlayers _].
  eexists _, _. split.
  { apply convert_outputs_run; [done| |done].
    apply Forall_forall. intros t Ht. destruct (Hrows t Ht) as [-> _]. done. }
  simpl. split.
  { unfold unpadded, retained. by rewrite length_fmap, length_imap. }
  intros i x Hx. eexists. split; [by apply unpadded_lookup|].
  assert (∀ t, t ∈ selected_layers b out →
            ∃ row, tt_data t !! i = Some row ∧ length row = S) as Hrow.
  { intros t Ht%selected_layers_subset. destruct (Hrows t Ht) as [HN HS].
    destruct (lookup_lt_is_Some_2 (tt_data t) i) as [row Hrow].
    - rewrite HN. by apply lookup_lt_Some in Hx.
    - exists row. split; [done|]. by apply (HS i). }
  rewrite length_fmap, length_selected_layers by done.
  split; [|split; [|split]].
  - destruct b; [done|done].
  - apply Forall_fmap, Forall_forall. intros t Ht. simpl.
    destruct (Hrow t Ht) as (row & -> & Hlen). simpl.
    rewrite length_take, Hlen.
    pose proof (Forall_lookup_1 _ _ _ _ Hfit Hx) as Hle. simpl in Hle. lia.
  - done.
  - intros k t Hk.
    destruct (Hrow t) as (row & Hr & _); [by apply list_elem_of_lookup_2 in Hk|].
    exists row. split; [done|].
    by rewrite list_lookup_fmap, Hk; simpl; rewrite Hr.
Qed.

(** C4. On the same batch and the same encoder output, the two settings
    of the mode flag both succeed and return one list per document; the
    full-mode list has [num_hidden_layers + 1] layers, the last-layer
    list has one, and that one layer is the final entry of the full-mode
    list of the same document. The [last_layer_only] field records the
    mode. *)
Theorem convert_outputs_mode_toggle (num_hidden_layers S : nat) (model : Model)
    (X : list Ints1d) (out : PyTorchTransformerOutput float) (is_train : bool) :
  encoder_output_for num_hidden_layers (length X) S out →
  ∃ full bwd_full final bwd_final,
    _convert_outputs (set_all_layer_outputs true model) (X, out) is_train
    = Ok (full, bwd_full)
    ∧ _convert_outputs (set_all_layer_outputs false model) (X, out) is_train
      = Ok (final, bwd_final)
    ∧ last_layer_only full = false
    ∧ last_layer_only final = true
    ∧ length (outputs full) = length X
    ∧ length (outputs final) = length X
    ∧ ∀ i, i < length X →
        ∃ layers y,
          outputs full !! i = Some layers
          ∧ length layers = num_hidden_layers + 1
          ∧ last layers = Some y
          ∧ outputs final !! i = Some [y].
Proof.
  intros Hout.
  pose proof (encoder_output_rows _ _ _ _ Hout) as [Hne Hrows].
  destruct Hout as [Hlayers _].
  assert (Forall (λ t, length X ≤ length (tt_data t)) (all_outputs out)) as Hge.
  { apply Forall_forall. intros t Ht. destruct (Hrows t Ht) as [-> _]. done. }
  eexists _, _, _, _. split; [|split].
  { apply convert_outputs_run; [|done|done].
    simpl. apply lookup_insert_eq. }
  { apply convert_outputs_run; [|done|done].
    simpl. apply lookup_insert_eq. }
  simpl. split; [done|]. split; [done|].
  split; [unfold unpadded, retained; by rewrite length_fmap, length_imap|].
  split; [unfold unpadded, retained; by rewrite length_fmap, length_imap|].
  intros i Hi. destruct (lookup_lt_is_Some_2 X i Hi) as [x Hx].
  rewrite !(unpadded_lookup _ _ _ _ _ Hx). simpl.
  destruct (last (all_outputs out)) as [t|] eqn:Hlast.
  2:{ by apply last_None in Hlast. }
  eexists _, _. split; [done|]. rewrite length_fmap. split; [done|].
  split; [|done].
  by rewrite fmap_last, Hlast.
Qed.
End ConvertOutputsClaims.

Section BackwardClaims.
Context {float : Type}.

Lemma convert_for_torch_backward_spec
    (Yt : list (list (torch_tensor (list (list float)))))
    (dY : list (list (list (list float)))) :
  convert_for_torch_backward Yt dY
  = if decide (length (concat Yt) = length (concat dY)) then
      Ok (mkArgsKwargs [concat Yt]
            {["grad_tensors" := (λ y, xp2torch y None) <$> concat dY]})
    else Raise AssertionError.
Proof.
  unfold convert_for_torch_backward. rewrite length_fmap. done.
Qed.

(** C6. After a forward pass of [_convert_outputs], its backward closure
    raises [AssertionError] exactly when the number of gradients, counted
    over all documents and layers, differs from the number of forward
    outputs counted the same way. When the two counts agree it returns
    the flattened forward tensors as the single positional argument and
    the flattened gradients under [grad_tensors]; the two lists have the
    same length, and when the gradients are nested like the outputs,
    position [k] of both belongs to the same document and layer. *)
Theorem convert_for_torch_backward_assert (model : Model) (X : list Ints1d)
    (out : PyTorchTransformerOutput float) (is_train : bool) res bwd :
  _convert_outputs model (X, out) is_train = Ok (res, bwd) →
  ∀ dY : list (list (list (list float))),
    (bwd dY = Raise AssertionError
     ↔ length (concat dY) ≠ length (concat (outputs res)))
    ∧ (length (concat dY) = length (concat (outputs res)) →
       ∃ Yt_flat,
         bwd dY = Ok (mkArgsKwargs [Yt_flat]
                        {["grad_tensors" := (λ y, xp2torch y None) <$> concat dY]})
         ∧ torch2xp <$> Yt_flat = concat (outputs res)
         ∧ length Yt_flat = length ((λ y, xp2torch y None) <$> concat dY)
         ∧ (length <$> dY = length <$> outputs res →
            zip (torch2xp <$> Yt_flat) (concat dY)
            = concat (zip_with zip (outputs res) dY))).
Proof.
  intros Hfwd dY.
  apply convert_outputs_closure in Hfwd as (Yt & -> & ->).
  rewrite convert_for_torch_backward_spec, concat_fmap_fmap, length_fmap.
  destruct (decide (length (concat Yt) = length (concat dY))) as [Heq|Hne].
  - split; [split; [discriminate | intros Hne; by rewrite Heq in Hne]|].
    intros _. exists (concat Yt). split; [done|]. split; [done|].
    split; [by rewrite length_fmap|].
    intros Hshape. rewrite <- concat_fmap_fmap. by apply zip_concat.
  - split; [split; [intros _; congruence | done]|].
    intros Heq. by rewrite Heq in Hne.
Qed.
End BackwardClaims.

(** ** Model composition glue *)

Section GlueClaims.
Context {St : Type}.
Context {TransformerInT TransformerOutT GradT LayerGradT PieceGradT : Type}.
Context {TorchTransformerModelT Tok2PiecesModelT SpanExtractorModelT
         RemoveBosEosT ChainT : Type}.
Abbreviation layer_t :=
  (Layer (St := St) (TransformerInT := TransformerInT)
         (TransformerOutT := TransformerOutT) (GradT := GradT)
         (LayerGradT := LayerGradT)).
Abbreviation model_t :=
  (TransformerModel (St := St) (TransformerInT := TransformerInT)
         (TransformerOutT := TransformerOutT) (GradT := GradT)
         (LayerGradT := LayerGradT)
         (TorchTransformerModelT := TorchTransformerModelT)
         (Tok2PiecesModelT := Tok2PiecesModelT)).

Context (with_non_ws_tokens : ChainT → layer_t)
        (chain : Tok2PiecesModelT → SpanExtractorModelT → RemoveBosEosT → ChainT)
        (remove_bos_eos : RemoveBosEosT)
        (get_dim : TorchTransformerModelT → string → result Z).

Abbreviation build := (build_transformer_model_v1 with_non_ws_tokens chain
                      remove_bos_eos get_dim).

Lemma build_transformer_model_layers with_spans transformer piece_encoder model :
  build with_spans transformer piece_encoder = Ok model →
  tm_layers model
  = [with_non_ws_tokens (chain piece_encoder (with_spans transformer) remove_bos_eos)].
Proof.
  unfold build_transformer_model_v1. intros Hbuild.
  apply result_bind_inv in Hbuild as (nO & _ & Hbuild).
  by injection Hbuild as <-.
Qed.

Lemma backprop_returns_empty (backprop_layer : GradT → M St LayerGradT)
    (dY : GradT) (s : St) :
  backprop (PieceGradT := PieceGradT) backprop_layer dY s
  = match backprop_layer dY s with
    | (Ok _, s') => (Ok [], s')
    | (Raise e, s') => (Raise e, s')
    end.
Proof. unfold backprop. rewrite run_bind. by destruct (backprop_layer dY s) as [[]]. Qed.

Lemma forward_first_layer (model : model_t) (layer0 : layer_t) docs is_train s :
  tm_layers model !! 0 = Some layer0 →
  transformer_model_forward (PieceGradT := PieceGradT) model docs is_train s
  = match layer_call layer0 docs is_train s with
    | (Ok (Y, backprop_layer), s') => (Ok (Y, backprop backprop_layer), s')
    | (Raise e, s') => (Raise e, s')
    end.
Proof.
  intros Hlayer. unfold transformer_model_forward, getitem.
  rewrite run_bind, run_lift, Hlayer, run_bind.
  by destruct (layer_call layer0 docs is_train s) as [[[Y bl]|e] s'].
Qed.

(** C7. For a model composed by [build_transformer_model_v1], whenever
    the wrapped layer returns its output and its backprop callback,
    [transformer_model_forward] returns that output paired with a
    backward closure. For every gradient the closure runs the wrapped
    callback and, when that returns, returns the empty list, whatever the
    callback returned; the closure never returns anything else. *)
Theorem transformer_model_forward_no_gradient with_spans transformer
    piece_encoder (model : model_t) docs is_train (s s' : St) Y backprop_layer :
  build with_spans transformer piece_encoder = Ok model →
  layer_call
    (with_non_ws_tokens (chain piece_encoder (with_spans transformer) remove_bos_eos))
    docs is_train s
  = (Ok (Y, backprop_layer), s') →
  ∃ bwd,
    transformer_model_forward (PieceGradT := PieceGradT) model docs is_train s = (Ok (Y, bwd), s')
    ∧ ∀ (dY : GradT) (t : St),
        (∀ g t', backprop_layer dY t = (Ok g, t') → bwd dY t = (Ok [], t'))
        ∧ (∀ r t', bwd dY t = (Ok r, t') → r = []).
Proof.
  intros Hbuild Hcall.
  apply build_transformer_model_layers in Hbuild.
  exists (backprop backprop_layer). split.
  - erewrite forward_first_layer by (by rewrite Hbuild).
    by rewrite Hcall.
  - intros dY t. rewrite backprop_returns_empty.
    destruct (backprop_layer dY t) as [[g|e] t1]; split; congruence.
Qed.
End GlueClaims.

(** ** Checkpoint loader *)

Section CheckpointClaims.
Context {Tensor Config Path ModelRest ShimRest PyAny : Type}.
Context (torch_load : Path → torch_device → result (gmap string Tensor))
        (convert_pretrained_model_for_encoder :
           encoder_obj (Tensor := Tensor) (Config := Config) →
           gmap string Tensor → result (gmap string Tensor))
        (load_state_dict : Config → gmap string Tensor →
                           M (module_state (Tensor := Tensor)) unit)
        (module_to : Config → torch_device → M (module_state (Tensor := Tensor)) unit).

Abbreviation heap := (gmap positive (obj (Tensor := Tensor) (Config := Config)
                                    (ModelRest := ModelRest) (ShimRest := ShimRest))).
Abbreviation loader := (build_pytorch_checkpoint_loader_v1 (PyAny := PyAny)
                       (ModelRest := ModelRest) (ShimRest := ShimRest)
                       torch_load convert_pretrained_model_for_encoder
                       load_state_dict module_to).

Lemma call_method_at {A : Type} (h : heap) (encoder : positive) e
    (method : Config → M module_state A) :
  h !! encoder = Some (ObjEncoder e) →
  call_method encoder method h
  = (fst (method (enc_config e) (enc_state e)),
     <[encoder := ObjEncoder {| enc_config := enc_config e;
                                enc_state := snd (method (enc_config e) (enc_state e)) |}]> h).
Proof.
  intros Hlook. unfold call_method. rewrite Hlook.
  by destruct (method (enc_config e) (enc_state e)).
Qed.

(** C8. Let the model's first shim wrap the encoder stored at [enc]. Then
    however the callback ends, the heap it leaves differs from the heap
    it found at most in the state (weights and device) of that encoder:
    every other object, the model and the shim included, is untouched and
    the encoder keeps its configuration. If the callback returns, it
    returns the model it was given; and it does return, with the state
    [load_state_dict] and [to] produced in turn, when the checkpoint
    loads, the keys convert and both module methods succeed. *)
Theorem checkpoint_loader_frame (path : Path) (model : positive) (X Y : option PyAny)
    (h : heap) shims rest shim0 shim_rest enc e :
  h !! model = Some (ObjModel shims rest) →
  shims !! 0 = Some shim0 →
  h !! shim0 = Some (ObjShim enc shim_rest) →
  h !! enc = Some (ObjEncoder e) →
  ∀ r h', loader path model X Y h = (r, h') →
    (∃ ms, h' = <[enc := ObjEncoder {| enc_config := enc_config e;
                                       enc_state := ms |}]> h)
    ∧ (∀ l, l ≠ enc → h' !! l = h !! l)
    ∧ h' !! model = h !! model
    ∧ (∀ v, r = Ok v → v = model)
    ∧ (∀ params params' ms1 ms2,
         torch_load path get_torch_default_device = Ok params →
         convert_pretrained_model_for_encoder e params = Ok params' →
         load_state_dict (enc_config e) params' (enc_state e) = (Ok (), ms1) →
         module_to (enc_config e) get_torch_default_device ms1 = (Ok (), ms2) →
         r = Ok model
         ∧ h' = <[enc := ObjEncoder {| enc_config := enc_config e;
                                       enc_state := ms2 |}]> h).
Proof.
  intros Hmodel Hshim0 Hshim Henc r h' Hrun.
  assert (model ≠ enc) as Hne by (intros ->; congruence).
  assert (h = <[enc := ObjEncoder {| enc_config := enc_config e;
                                     enc_state := enc_state e |}]> h) as Hsame.
  { symmetry. apply insert_id. rewrite Henc. by destruct e. }
  assert ((∃ ms, h' = <[enc := ObjEncoder {| enc_config := enc_config e;
                                             enc_state := ms |}]> h)
          ∧ (∀ v, r = Ok v → v = model)
          ∧ (∀ params params' ms1 ms2,
               torch_load path get_torch_default_device = Ok params →
               convert_pretrained_model_for_encoder e params = Ok params' →
               load_state_dict (enc_config e) params' (enc_state e) = (Ok (), ms1) →
               module_to (enc_config e) get_torch_default_device ms1 = (Ok (), ms2) →
               r = Ok model
               ∧ h' = <[enc := ObjEncoder {| enc_config := enc_config e;
                                             enc_state := ms2 |}]> h)) as Hmain.
  { revert Hrun. unfold build_pytorch_checkpoint_loader_v1, load.
    rewrite run_bind. unfold get_shims at 1. rewrite Hmodel.
    rewrite run_bind, run_lift. unfold getitem. rewrite Hshim0.
    rewrite run_bind. unfold get_shim_model at 1. rewrite Hshim.
    rewrite run_bind, run_lift.
    destruct (torch_load path get_torch_default_device) as [params|err].
    2:{ intros [= <- <-]. split; [eauto|]. split; [done|]. by intros. }
    rewrite run_bind. unfold deref_encoder at 1. rewrite Henc.
    rewrite run_bind, run_lift.
    destruct (convert_pretrained_model_for_encoder e params)
      as [params'|err] eqn:Hconv.
    2:{ intros [= <- <-]. split; [eauto|]. split; [done|].
        intros p p' ms1 ms2 [= <-]. rewrite Hconv. done. }
    rewrite run_bind, (call_method_at h enc e) by done.
    destruct (load_state_dict (enc_config e) params' (enc_state e))
      as [[[]|err] ms1] eqn:Hlsd; cbn [fst snd].
    2:{ intros [= <- <-]. split; [eauto|]. split; [done|].
        intros p p' m1 m2 [= <-]. rewrite Hconv. intros [= <-].
        rewrite Hlsd. done. }
    rewrite run_bind.
    rewrite (call_method_at _ enc {| enc_config := enc_config e; enc_state := ms1 |})
      by apply lookup_insert_eq.
    cbn [enc_config enc_state]. rewrite insert_insert_eq.
    destruct (module_to (enc_config e) get_torch_default_device ms1)
      as [[[]|err] ms2] eqn:Hto; cbn [fst snd].
    - rewrite run_ret. intros [= <- <-]. split; [eauto|].
      split; [by intros v [= <-]|].
      intros p p' m1 m2 [= <-]. rewrite Hconv. intros [= <-].
      rewrite Hlsd. intros [= <-]. rewrite Hto. intros [= <-]. done.
    - intros [= <- <-]. split; [eauto|]. split; [done|].
      intros p p' m1 m2 [= <-]. rewrite Hconv. intros [= <-].
      rewrite Hlsd. intros [= <-]. rewrite Hto. done. }
  destruct Hmain as ([ms Hh'] & Hret & Hok).
  split; [eauto|]. split; [|split; [|split; [done|done]]].
  - intros l Hl. rewrite Hh'. by apply lookup_insert_ne.
  - rewrite Hh'. by apply lookup_insert_ne.
Qed.
End CheckpointClaims.

(** ** Gradient-scaler configuration *)

Section PytorchEncoderFacts.
Context {V : Type} (scaler_keywords : gset string).

(** The keyword arguments [_pytorch_encoder] hands to the scaler. *)
Lemma pytorch_encoder_run (encoder : CuratedEncoder) (hidden_width : Z)
    (mixed_precision : bool) (cfg : py_dict V) :
  _pytorch_encoder scaler_keywords encoder hidden_width mixed_precision cfg
  = (grad_scaler ←
       new_PyTorchGradScaler scaler_keywords
         (let items := if is_SimpleFrozenDict cfg then ∅ else dict_items cfg in
          match items !! "enabled" with
          | None => <["enabled" := PyBool mixed_precision]> items
          | Some _ => items
          end);
     mret {| pw_encoder := encoder;
             pw_max_model_seq_len := enc_max_seq_len encoder;
             pw_padding_idx := enc_padding_idx encoder;
             pw_mixed_precision := mixed_precision;
             pw_grad_scaler := grad_scaler;
             pw_dims := {["nO" := hidden_width]};
             pw_attrs := {["_all_layer_outputs" := true]} |}).
Proof.
  unfold _pytorch_encoder.
  destruct (is_SimpleFrozenDict cfg); cbv zeta.
  - by rewrite lookup_empty, decide_True.
  - destruct (dict_items cfg !! "enabled") eqn:Hlook.
    + by rewrite decide_False.
    + by rewrite decide_True.
Qed.

(** What every wrapper [_pytorch_encoder] returns carries. *)
Lemma pytorch_encoder_returned (encoder : CuratedEncoder) (hidden_width : Z)
    (mixed_precision : bool) (cfg : py_dict V) (w : PyTorchWrapper V) :
  _pytorch_encoder scaler_keywords encoder hidden_width mixed_precision cfg = Ok w →
  pw_max_model_seq_len w = enc_max_seq_len encoder
  ∧ pw_padding_idx w = enc_padding_idx encoder
  ∧ pw_attrs w = {["_all_layer_outputs" := true]}.
Proof.
  rewrite pytorch_encoder_run. intros Hrun.
  apply result_bind_inv in Hrun as (scaler & _ & Hw).
  by injection Hw as <-.
Qed.

(** A frozen mapping never makes the constructor fail: whatever it holds,
    the scaler is built from [enabled] alone, set to [mixed_precision]. *)
Lemma pytorch_encoder_frozen (encoder : CuratedEncoder) (hidden_width : Z)
    (mixed_precision : bool) (items : gmap string (py_value V)) :
  ∃ w,
    _pytorch_encoder scaler_keywords encoder hidden_width mixed_precision
      (SimpleFrozenDict items) = Ok w
    ∧ scaler_enabled (pw_grad_scaler w) = PyBool mixed_precision.
Proof.
  rewrite pytorch_encoder_run. cbn [is_SimpleFrozenDict]. cbv zeta.
  rewrite lookup_empty. unfold new_PyTorchGradScaler.
  rewrite decide_True
    by (rewrite dom_insert_L, dom_empty_L, (right_id_L ∅ (∪)); apply union_subseteq_l).
  eexists. split; [reflexivity|]. cbn [pw_grad_scaler scaler_enabled].
  by rewrite lookup_insert_eq.
Qed.

(** An ordinary dictionary that declares only known keywords and carries
    ["enabled"] keeps it. *)
Lemma pytorch_encoder_plain_keeps_enabled (encoder : CuratedEncoder) (hidden_width : Z)
    (mixed_precision : bool) (items : gmap string (py_value V)) (v : py_value V) :
  items !! "enabled" = Some v →
  dom items ⊆ {["enabled"]} ∪ scaler_keywords →
  ∃ w,
    _pytorch_encoder scaler_keywords encoder hidden_width mixed_precision (Dict items)
    = Ok w
    ∧ scaler_enabled (pw_grad_scaler w) = v.
Proof.
  intros Hlook Hdom. rewrite pytorch_encoder_run.
  cbn [is_SimpleFrozenDict dict_items]. cbv zeta. rewrite Hlook.
  unfold new_PyTorchGradScaler. rewrite decide_True by done.
  eexists. split; [reflexivity|]. cbn [pw_grad_scaler scaler_enabled].
  by rewrite Hlook.
Qed.
End PytorchEncoderFacts.

(** C10. A caller-supplied ["enabled"] value is to be left unchanged, and
    for an ordinary dictionary it is. For a [SimpleFrozenDict] that carries
    the key the code does otherwise: the mapping is replaced by an empty
    dictionary instead of a mutable copy, so with [mixed_precision] off the
    scaler is built disabled although the caller asked for it to be
    enabled, while the same entries in an ordinary dictionary give an
    enabled scaler. *)
Theorem pytorch_encoder_frozen_enabled_discarded :
  dict_items Demo.frozen_config !! "enabled" = Some (PyBool true)
  ∧ dict_items Demo.plain_enabled_config = dict_items Demo.frozen_config
  ∧ (∃ w,
       _pytorch_encoder Demo.scaler_keywords Demo.bert_encoder 768 false
         Demo.frozen_config = Ok w
       ∧ scaler_enabled (pw_grad_scaler w) = PyBool false)
  ∧ (∃ w,
       _pytorch_encoder Demo.scaler_keywords Demo.bert_encoder 768 false
         Demo.plain_enabled_config = Ok w
       ∧ scaler_enabled (pw_grad_scaler w) = PyBool true).
Proof.
  split; [reflexivity|]. split; [reflexivity|]. split.
  - apply pytorch_encoder_frozen.
  - apply pytorch_encoder_plain_keeps_enabled; [reflexivity|].
    unfold Demo.plain_enabled_config. cbn [dict_items].
    rewrite dom_singleton_L. apply union_subseteq_l.
Qed.

(** ** Concrete instances *)

Example convert_inputs_demo :
  fst (@_convert_inputs nat 0 unit {| ops := {| device_type := "cpu"; device_id := 0 |}; attrs := ∅ |}
     [[11; 12; 13]; [21; 22; 23; 24; 25]]%Z false 512 0 [])
  = Ok (mkArgsKwargs [TorchTensor DefaultDevice [[11; 12; 13; 0; 0]; [21; 22; 23; 24; 25]]%Z] ∅,
        convert_from_torch_backward 0 [[11; 12; 13]; [21; 22; 23; 24; 25]]%Z).
Proof. reflexivity. Qed.

Example convert_outputs_demo :
  fst <$> _convert_outputs
    (set_all_layer_outputs false {| ops := {| device_type := "cpu"; device_id := 0 |}; attrs := ∅ |})
    ([[7; 8]; [9]]%Z,
     {| all_outputs := [TorchTensor DefaultDevice [[[1]; [2]]; [[3]; [4]]];
                        TorchTensor DefaultDevice [[[5]; [6]]; [[7]; [8]]]] |}) false
  = Ok {| outputs := [[[[5]; [6]]]; [[[7]]]]; last_layer_only := true |}.
Proof. reflexivity. Qed.

Lemma convert_inputs_pads_batch_witness :
  Demo.batch ≠ []
  ∧ Forall (λ x, (Z.of_nat (length x) ≤ 512)%Z) Demo.batch
  ∧ ∃ Xt bwd log',
      _convert_inputs (PyAny := unit) 0%Z Demo.cpu_model Demo.batch false 512 0 []
      = (Ok (mkArgsKwargs [Xt] ∅, bwd), log')
      ∧ length (tt_data Xt) = length Demo.batch
      ∧ Forall (λ row, length row = max_list (length <$> Demo.batch)) (tt_data Xt)
      ∧ ∀ i x, Demo.batch !! i = Some x →
          ∃ row, tt_data Xt !! i = Some row
                 ∧ take (length x) row = x
                 ∧ ∀ j, length x ≤ j < max_list (length <$> Demo.batch) →
                        row !! j = Some 0%Z.
Proof.
  assert (Demo.batch ≠ []) as Hne by done.
  assert (Forall (λ x, (Z.of_nat (length x) ≤ 512)%Z) Demo.batch) as Hfit
    by (repeat constructor; simpl; lia).
  split; [exact Hne|]. split; [exact Hfit|].
  exact (convert_inputs_pads_batch 0%Z Demo.cpu_model Demo.batch false 512 0 [] Hne Hfit).
Defined.

Lemma convert_inputs_rejects_long_witness :
  Exists (λ x, (4 < Z.of_nat (length x))%Z) Demo.batch
  ∧ _convert_inputs (PyAny := unit) 0%Z Demo.cpu_model Demo.batch false 4 0 []
    = (Raise (ValueError (seq_too_long_msg (max_list (length <$> Demo.batch)) 4)), []).
Proof.
  assert (Exists (λ x, (4 < Z.of_nat (length x))%Z) Demo.batch) as Hlong
    by (apply Exists_cons_tl, Exists_cons_hd; simpl; lia).
  split; [exact Hlong|].
  exact (convert_inputs_rejects_long 0%Z Demo.cpu_model Demo.batch false 4 0 [] Hlong).
Defined.

Lemma convert_from_torch_backward_zeros_witness :
  ∃ grads log2,
    convert_from_torch_backward 0%Z Demo.batch tt [] = (Ok grads, log2)
    ∧ length grads = length Demo.batch
    ∧ (∀ i x, Demo.batch !! i = Some x →
         ∃ g, grads !! i = Some g ∧ length g = length x ∧ Forall (λ v, v = 0%Z) g).
Proof.
  exact (convert_from_torch_backward_zeros 0%Z Demo.cpu_model Demo.batch false 512 0
           [] _ _ _ eq_refl tt []).
Defined.

Lemma convert_outputs_unpads_witness :
  ∃ res bwd,
    _convert_outputs (set_all_layer_outputs true Demo.cpu_model)
                     (Demo.short_batch, Demo.encoder_output) false
    = Ok (res, bwd)
    ∧ length (outputs res) = length Demo.short_batch
    ∧ ∀ i x, Demo.short_batch !! i = Some x →
        ∃ layers,
          outputs res !! i = Some layers
          ∧ length layers = 1 + 1
          ∧ Forall (λ y, length y = length x) layers
          ∧ length layers = length (selected_layers true Demo.encoder_output)
          ∧ ∀ k t, selected_layers true Demo.encoder_output !! k = Some t →
              ∃ row, tt_data t !! i = Some row
                     ∧ layers !! k = Some (take (length x) row).
Proof.
  apply (convert_outputs_unpads 1 2 (set_all_layer_outputs true Demo.cpu_model)
           Demo.short_batch Demo.encoder_output false true).
  - reflexivity.
  - split; [reflexivity|]. repeat constructor.
  - repeat constructor.
Defined.

Lemma convert_outputs_mode_toggle_witness :
  ∃ full bwd_full final bwd_final,
    _convert_outputs (set_all_layer_outputs true Demo.cpu_model)
                     (Demo.short_batch, Demo.encoder_output) false
    = Ok (full, bwd_full)
    ∧ _convert_outputs (set_all_layer_outputs false Demo.cpu_model)
                       (Demo.short_batch, Demo.encoder_output) false
      = Ok (final, bwd_final)
    ∧ last_layer_only full = false
    ∧ last_layer_only final = true
    ∧ length (outputs full) = length Demo.short_batch
    ∧ length (outputs final) = length Demo.short_batch
    ∧ ∀ i, i < length Demo.short_batch →
        ∃ layers y,
          outputs full !! i = Some layers
          ∧ length layers = 1 + 1
          ∧ last layers = Some y
          ∧ outputs final !! i = Some [y].
Proof.
  apply (convert_outputs_mode_toggle 1 2 Demo.cpu_model Demo.short_batch
           Demo.encoder_output false).
  split; [reflexivity|]. repeat constructor.
Defined.

Lemma convert_for_torch_backward_assert_witness :
  convert_for_torch_backward
    (retained false Demo.short_batch Demo.encoder_output) [[[[1]; [1]]]]%Z
  = Raise AssertionError
  ↔ length (concat [[[[1]; [1]]]]%Z)
    ≠ length (concat (unpadded false Demo.short_batch Demo.encoder_output)).
Proof.
  exact (proj1 (convert_for_torch_backward_assert
                  (set_all_layer_outputs false Demo.cpu_model)
                  Demo.short_batch Demo.encoder_output false
                  {| outputs := unpadded false Demo.short_batch Demo.encoder_output;
                     last_layer_only := true |}
                  (convert_for_torch_backward
                     (retained false Demo.short_batch Demo.encoder_output))
                  eq_refl [[[[1]; [1]]]]%Z)).
Defined.

Lemma transformer_model_forward_no_gradient_witness :
  ∃ model bwd,
    build_transformer_model_v1 Demo.counting_layer Demo.chain 0 Demo.get_dim
      (λ transformer, transformer) 1 2 = Ok model
    ∧ transformer_model_forward (PieceGradT := Z) model 10 true 0 = (Ok (13, bwd), 1)
    ∧ ∀ dY t : nat,
        (∀ g t', (Ok dY, S t) = (Ok g, t') → bwd dY t = (Ok [], t'))
        ∧ (∀ r t', bwd dY t = (Ok r, t') → r = []).
Proof.
  eexists.
  destruct (transformer_model_forward_no_gradient (PieceGradT := Z)
              Demo.counting_layer Demo.chain 0 Demo.get_dim
              (λ transformer, transformer) 1 2 _ 10 true 0 1 13
              (λ dY t, (Ok dY, S t)) eq_refl eq_refl) as [bwd Hbwd].
  exists bwd. split; [reflexivity|]. exact Hbwd.
Defined.

Lemma checkpoint_loader_frame_witness :
  ∃ r h',
    build_pytorch_checkpoint_loader_v1 (PyAny := unit) Demo.torch_load Demo.convert
      Demo.load_state_dict Demo.module_to "model.pt" 1%positive None None Demo.heap0
    = (r, h')
    ∧ r = Ok 1%positive
    ∧ h' = <[3%positive :=
               ObjEncoder {| enc_config := tt;
                             enc_state := {| ms_weights := {["embeddings.weight" := 42%Z]};
                                             ms_device := DefaultDevice |} |}]> Demo.heap0
    ∧ (∀ l, l ≠ 3%positive → h' !! l = Demo.heap0 !! l)
    ∧ h' !! 1%positive = Demo.heap0 !! 1%positive.
Proof.
  exists (Ok 1%positive),
         (<[3%positive :=
              ObjEncoder {| enc_config := tt;
                            enc_state := {| ms_weights := {["embeddings.weight" := 42%Z]};
                                            ms_device := DefaultDevice |} |}]> Demo.heap0).
  split; [vm_compute; reflexivity|].
  destruct (checkpoint_loader_frame (PyAny := unit) Demo.torch_load Demo.convert
              Demo.load_state_dict Demo.module_to "model.pt" 1%positive None None
              Demo.heap0 [2%positive] tt 2%positive tt 3%positive Demo.encoder0
              eq_refl eq_refl eq_refl eq_refl (Ok 1%positive)
              (<[3%positive :=
                   ObjEncoder {| enc_config := tt;
                                 enc_state := {| ms_weights := {["embeddings.weight" := 42%Z]};
                                                 ms_device := DefaultDevice |} |}]> Demo.heap0))
    as (_ & Hframe & Hmodel & _ & Hok); [vm_compute; reflexivity|].
  destruct (Hok Demo.checkpoint {["embeddings.weight" := 42%Z]}
              {| ms_weights := {["embeddings.weight" := 42%Z]}; ms_device := Cuda 0 |}
              {| ms_weights := {["embeddings.weight" := 42%Z]}; ms_device := DefaultDevice |}
              eq_refl eq_refl eq_refl eq_refl) as [Hr Hh].
  split; [exact Hr|]. split; [exact Hh|]. split; [exact Hframe|exact Hmodel].
Defined.

(** * Further properties *)

(** ** The pad conversion *)

Section ConvertInputsMore.
Context {float : Type} (fzero : float) {PyAny : Type}.

Lemma max_list_bounds (X : list (list Z)) (x : list Z) :
  x ∈ X → length x ≤ max_list (length <$> X).
Proof.
  intros Hx. apply (max_list_elem_of_le (length x) (length <$> X)).
  apply list_elem_of_fmap. eauto.
Qed.

Lemma exists_longest (X : list (list Z)) :
  X ≠ [] → ∃ x, x ∈ X ∧ length x = max_list (length <$> X).
Proof.
  intros Hne.
  assert (max_list (length <$> X) ∈ length <$> X) as Hm
    by (apply max_list_attained; by destruct X).
  apply list_elem_of_fmap in Hm as (x & Hlen & Hx). eauto.
Qed.

(** The three exits of [_convert_inputs]. *)
Lemma convert_inputs_run (model : Model) (X : list (list Z)) (is_train : bool)
    (max_model_seq_len padding_idx : Z) (log : list alloc_event) :
  _convert_inputs (PyAny := PyAny) fzero model X is_train max_model_seq_len padding_idx log
  = convert_inputs_outcome fzero model X max_model_seq_len padding_idx log.
Proof.
  destruct X as [|x0 X']; [reflexivity|].
  set (X := x0 :: X'). assert (X ≠ []) as Hne by done.
  change (convert_inputs_outcome fzero model X max_model_seq_len padding_idx log)
    with (let m := max_list (length <$> X) in
          if decide (max_model_seq_len < Z.of_nat m)%Z then
            (Raise (ValueError (seq_too_long_msg m max_model_seq_len)), log)
          else
            (Ok (mkArgsKwargs
                   [TorchTensor (input_device (ops model)) (padded m padding_idx <$> X)]
                   (∅ : gmap string Empty_set),
                 convert_from_torch_backward (PyAny := PyAny) fzero X),
             log ++ [AllocFull (length X) m padding_idx])).
  cbv zeta. destruct (decide _) as [Hlong|Hfit].
  - unfold _convert_inputs. rewrite run_bind, run_lift.
    change (size <$> X) with (length <$> X).
    rewrite py_max_nonempty by (by destruct X).
    by rewrite decide_True.
  - apply convert_inputs_fits; [done|].
    apply Forall_forall. intros x Hx.
    pose proof (max_list_bounds X x Hx). lia.
Qed.

(** X2. When [_convert_inputs] returns, it has allocated exactly one buffer, of
    N rows and max(lengths) columns filled with [padding_idx]; it returns
    one positional argument and no keyword argument, and the tensor is on
    [cuda:device_id] when the ops are GPU ops and on the default device
    otherwise. *)
Theorem convert_inputs_allocation_and_device (model : Model) (X : list (list Z))
    (is_train : bool) (max_model_seq_len padding_idx : Z)
    (log log' : list alloc_event) out bwd :
  _convert_inputs (PyAny := PyAny) fzero model X is_train max_model_seq_len padding_idx log
  = (Ok (out, bwd), log') →
  log' = log ++ [AllocFull (length X) (max_list (length <$> X)) padding_idx]
  ∧ kwargs out = ∅
  ∧ ∃ Xt, args out = [Xt]
          ∧ tt_device Xt = (if decide (device_type (ops model) = "gpu")
                            then Cuda (device_id (ops model)) else DefaultDevice).
Proof.
  rewrite convert_inputs_run. unfold convert_inputs_outcome.
  destruct X as [|x0 X']; [discriminate|].
  cbv zeta. destruct (decide _) as [Hlong|Hfit]; [discriminate|].
  intros [= <- <- <-]. split; [done|]. split; [done|].
  eexists. split; [done|]. done.
Qed.

(** X3. A batch whose sequences all have the same length reaches the encoder
    as it is: no padding cell is added. *)
Theorem convert_inputs_equal_lengths (model : Model) (X : list (list Z))
    (is_train : bool) (max_model_seq_len padding_idx : Z) (log : list alloc_event)
    (n : nat) :
  X ≠ [] →
  Forall (λ x, length x = n) X →
  (Z.of_nat n ≤ max_model_seq_len)%Z →
  ∃ Xt bwd log',
    _convert_inputs (PyAny := PyAny) fzero model X is_train max_model_seq_len padding_idx log
    = (Ok (mkArgsKwargs [Xt] ∅, bwd), log')
    ∧ tt_data Xt = X.
Proof.
  intros Hne Hall Hn.
  assert (max_list (length <$> X) = n) as Hmax.
  { destruct (exists_longest X Hne) as (x & Hx & <-).
    rewrite Forall_forall in Hall. by apply Hall. }
  rewrite convert_inputs_run. unfold convert_inputs_outcome.
  destruct X as [|x0 X']; [done|]. cbv zeta.
  rewrite Hmax, decide_False by lia.
  eexists _, _, _. split; [done|]. cbn [tt_data].
  transitivity (id <$> x0 :: X'); [|apply list_fmap_id].
  apply Forall_fmap_ext_1. eapply Forall_impl; [exact Hall|].
  intros x Hx. simpl in Hx. unfold padded.
  by rewrite Hx, Nat.sub_diag, app_nil_r.
Qed.
End ConvertInputsMore.

(** ** The un-pad conversion *)

Lemma mapM_result_ext {A B : Type} (f g : A → result B) (l : list A) :
  (∀ x, x ∈ l → f x = g x) → mapM f l = mapM g l.
Proof.
  induction l as [|x l IH]; intros Hfg; [done|].
  cbn [mapM]. rewrite (Hfg x) by apply list_elem_of_here.
  rewrite IH by (intros y Hy; apply Hfg; by apply list_elem_of_further). done.
Qed.

Lemma mapM_result_Forall2 {A B : Type} (R : A → A → Prop) (f : A → result B)
    (l1 l2 : list A) :
  Forall2 R l1 l2 → (∀ x y, R x y → f x = f y) → mapM f l1 = mapM f l2.
Proof.
  intros Hrel Hf. induction Hrel as [|x y l1 l2 Hxy _ IH]; [done|].
  cbn [mapM]. by rewrite (Hf x y Hxy), IH.
Qed.

Lemma mapM_result_ok_or_raise {A B : Type} (f : A → result B) (e : exn) (l : list A) :
  (∀ x, x ∈ l → (∃ b, f x = Ok b) ∨ f x = Raise e) →
  (∃ bs, mapM f l = Ok bs) ∨ mapM f l = Raise e.
Proof.
  induction l as [|x l IH]; intros Hf; [left; by exists []|].
  cbn [mapM]. destruct (Hf x) as [[b ->]| ->]; [apply list_elem_of_here| |by right].
  rewrite result_bind_ok.
  destruct IH as [[bs ->]| ->]; [|left; by eexists|by right].
  intros y Hy. apply Hf. by apply list_elem_of_further.
Qed.

Lemma mapM_result_raise {A B : Type} (f : A → result B) (e : exn) (l : list A) :
  (∀ x, x ∈ l → (∃ b, f x = Ok b) ∨ f x = Raise e) →
  (∃ x, x ∈ l ∧ f x = Raise e) →
  mapM f l = Raise e.
Proof.
  induction l as [|x l IH]; intros Hf (y & Hy & Hfail).
  - by apply elem_of_nil in Hy.
  - cbn [mapM]. destruct (Hf x) as [[b Hb]| ->]; [apply list_elem_of_here| |done].
    rewrite Hb, result_bind_ok.
    apply elem_of_cons in Hy as [->|Hy]; [congruence|].
    rewrite IH; [done| |eauto].
    intros z Hz. apply Hf. by apply list_elem_of_further.
Qed.

Lemma length_concat_by_shape {A B : Type} (xs : list (list A)) (ys : list (list B)) :
  length <$> xs = length <$> ys → length (concat xs) = length (concat ys).
Proof.
  revert ys. induction xs as [|x xs IH]; intros [|y ys] Hshape; try done.
  simpl in *. injection Hshape as Hxy Hrest.
  rewrite !length_app, Hxy, (IH ys Hrest). done.
Qed.

Lemma lookup_concat_uniform {A : Type} (L : nat) (ls : list (list A)) (i j : nat)
    (l : list A) (x : A) :
  Forall (λ l, length l = L) ls →
  ls !! i = Some l → l !! j = Some x →
  concat ls !! (i * L + j) = Some x.
Proof.
  intros Hlen. revert i. induction Hlen as [|l0 ls Hl0 _ IH]; intros i Hl Hx; [done|].
  destruct i as [|i]; simpl in *.
  - injection Hl as ->. rewrite lookup_app_l; [done|]. by apply lookup_lt_Some in Hx.
  - rewrite lookup_app_r by lia.
    replace (L + i * L + j - length l0) with (i * L + j) by lia.
    by apply IH.
Qed.

Section ConvertOutputsMore.
Context {float : Type}.

Abbreviation index_error := (IndexError "index is out of bounds for dimension 0").

Lemma index_row_prefix_cases (t : torch_tensor (list (list (list float)))) (i len : nat) :
  (∃ y, index_row_prefix t i len = Ok y) ∨ index_row_prefix t i len = Raise index_error.
Proof.
  unfold index_row_prefix. destruct (tt_data t !! i); [left; by eexists|by right].
Qed.

Lemma index_row_prefix_missing (t : torch_tensor (list (list (list float)))) (i len : nat) :
  length (tt_data t) ≤ i → index_row_prefix t i len = Raise index_error.
Proof.
  intros Hi. unfold index_row_prefix. by rewrite lookup_ge_None_2.
Qed.

Lemma enumerate_lengths_lookup (X : list (list Z)) (i len : nat) :
  (i, len) ∈ enumerate (shape0 <$> X) ↔ ∃ x, X !! i = Some x ∧ len = length x.
Proof.
  rewrite elem_of_enumerate, list_lookup_fmap. split.
  - destruct (X !! i) as [x|]; [|done]. intros [= <-]. eauto.
  - intros (x & -> & ->). done.
Qed.

(** X4. Without the attribute the owning pipe sets, [_convert_outputs] raises
    [KeyError] for the attribute's name, whatever the batch and the
    encoder output. *)
Theorem convert_outputs_missing_flag (model : Model) (X : list (list Z))
    (out : PyTorchTransformerOutput float) (is_train : bool) :
  attrs model !! "_all_layer_outputs" = None →
  _convert_outputs model (X, out) is_train = Raise (KeyError "_all_layer_outputs").
Proof.
  intros Hattr. unfold _convert_outputs, getitem_dict. by rewrite Hattr.
Qed.

(** X5. On the empty batch [_convert_outputs] returns no per-document list in
    either mode, whatever the encoder returned, also when it returned no
    layer at all; the backward closure then accepts the empty gradient. *)
Theorem convert_outputs_empty_batch (model : Model)
    (out : PyTorchTransformerOutput float) (is_train b : bool) :
  attrs model !! "_all_layer_outputs" = Some b →
  ∃ bwd,
    _convert_outputs model ([], out) is_train
    = Ok ({| outputs := []; last_layer_only := negb b |}, bwd)
    ∧ bwd [] = Ok (mkArgsKwargs [[]] {["grad_tensors" := []]}).
Proof.
  intros Hattr. unfold _convert_outputs, getitem_dict.
  rewrite Hattr, result_bind_ok. destruct b; eexists; split; reflexivity.
Qed.

(** X6. When the encoder returns no layer for a non-empty batch, full mode
    returns one empty list per document, while last-layer mode fails with
    the [IndexError] of indexing an empty list. *)
Theorem convert_outputs_no_layers (model : Model) (X : list (list Z))
    (out : PyTorchTransformerOutput float) (is_train : bool) :
  all_outputs out = [] →
  X ≠ [] →
  (∃ bwd,
     _convert_outputs (set_all_layer_outputs true model) (X, out) is_train
     = Ok ({| outputs := replicate (length X) []; last_layer_only := false |}, bwd))
  ∧ _convert_outputs (set_all_layer_outputs false model) (X, out) is_train
    = Raise (IndexError "list index out of range").
Proof.
  intros Hnone Hne. split.
  - unfold _convert_outputs, getitem_dict. cbn [attrs set_all_layer_outputs].
    rewrite lookup_insert_eq, result_bind_ok, Hnone.
    rewrite (mapM_result_ok _ (λ _, [])) by (by intros [i len] _).
    rewrite result_bind_ok. eexists. do 2 f_equal. f_equal.
    rewrite <- list_fmap_compose.
    rewrite (const_fmap _ _ []) by done.
    unfold enumerate. by rewrite length_imap, length_fmap.
  - unfold _convert_outputs, getitem_dict. cbn [attrs set_all_layer_outputs].
    rewrite lookup_insert_eq, result_bind_ok, Hnone.
    destruct X as [|x X]; [done|]. reflexivity.
Qed.

(** X7. In full mode, an encoder output in which some layer has fewer rows than
    the batch has sequences makes [_convert_outputs] fail with the
    [IndexError] of indexing the batch dimension out of bounds. *)
Theorem convert_outputs_missing_rows (model : Model) (X : list (list Z))
    (out : PyTorchTransformerOutput float) (is_train : bool) :
  attrs model !! "_all_layer_outputs" = Some true →
  Exists (λ t, length (tt_data t) < length X) (all_outputs out) →
  _convert_outputs model (X, out) is_train = Raise index_error.
Proof.
  intros Hattr Hshort. apply Exists_exists in Hshort as (t & Ht & Hrows).
  unfold _convert_outputs, getitem_dict. rewrite Hattr, result_bind_ok.
  rewrite (mapM_result_raise _ index_error); [done| |].
  - intros [i len] _. apply mapM_result_ok_or_raise.
    intros u _. apply index_row_prefix_cases.
  - destruct (lookup_lt_is_Some_2 X (length X - 1)) as [x Hx]; [lia|].
    exists (length X - 1, length x). split.
    + apply enumerate_lengths_lookup. eauto.
    + apply mapM_result_raise.
      * intros u _. apply index_row_prefix_cases.
      * exists t. split; [done|]. apply index_row_prefix_missing. lia.
Qed.

(** X8. Last-layer mode reads the final layer only: two encoder outputs with
    the same final layer give the same result, whatever their other layers
    hold. *)
Theorem convert_outputs_last_layer_only_reads_final (model : Model)
    (X : list (list Z)) (out1 out2 : PyTorchTransformerOutput float)
    (is_train : bool) :
  last (all_outputs out1) = last (all_outputs out2) →
  _convert_outputs (set_all_layer_outputs false model) (X, out1) is_train
  = _convert_outputs (set_all_layer_outputs false model) (X, out2) is_train.
Proof.
  intros Hlast. unfold _convert_outputs, getitem_dict, getitem_last.
  cbn [attrs set_all_layer_outputs]. rewrite lookup_insert_eq, !result_bind_ok.
  by rewrite Hlast.
Qed.
End ConvertOutputsMore.

Section UnpadContents.
Context {float : Type}.

(** X9. A sequence longer than the encoder's output is clipped, not rejected:
    each returned layer of document [i] is row [i] of the layer cut to the
    sequence's length, so it has as many timesteps as the shorter of the
    sequence and the row. *)
Theorem convert_outputs_clips_to_row (model : Model) (X : list (list Z))
    (out : PyTorchTransformerOutput float) (is_train b : bool) :
  attrs model !! "_all_layer_outputs" = Some b →
  Forall (λ t, length X ≤ length (tt_data t)) (all_outputs out) →
  all_outputs out ≠ [] →
  ∃ res bwd,
    _convert_outputs model (X, out) is_train = Ok (res, bwd)
    ∧ ∀ i x, X !! i = Some x →
        ∃ layers,
          outputs res !! i = Some layers
          ∧ ∀ k t row, selected_layers b out !! k = Some t →
              tt_data t !! i = Some row →
              ∃ y, layers !! k = Some y
                   ∧ y = take (length x) row
                   ∧ length y = length x `min` length row.
Proof.
  intros Hattr Hrows Hne. eexists _, _.
  split; [by apply convert_outputs_run|]. cbn [outputs].
  intros i x Hx. eexists. split; [by apply unpadded_lookup|].
  intros k t row Hk Hrow. eexists. split; [|split; [reflexivity|]].
  - rewrite list_lookup_fmap, Hk. simpl. by rewrite Hrow.
  - apply length_take.
Qed.

Lemma index_row_prefix_agree (X : list (list Z))
    (t1 t2 : torch_tensor (list (list (list float)))) (i : nat) (x : list Z) :
  agree_on_documents X t1 t2 → X !! i = Some x →
  index_row_prefix t1 i (length x) = index_row_prefix t2 i (length x).
Proof.
  intros [Hdev Hrows] Hx. specialize (Hrows i x Hx). unfold index_row_prefix.
  destruct (tt_data t1 !! i) as [r1|], (tt_data t2 !! i) as [r2|];
    simpl in Hrows; try done.
  injection Hrows as Hrows. by rewrite Hdev, Hrows.
Qed.

(** X10. Padding never leaks: when two encoder outputs are on the same devices
    and agree, for every document, on the timesteps below the document's
    length, [_convert_outputs] returns the same result for both, closure
    included, and fails the same way on both. What the encoder computed at
    padding timesteps is never read. *)
Theorem convert_outputs_ignores_padding (model : Model) (X : list (list Z))
    (out1 out2 : PyTorchTransformerOutput float) (is_train : bool) :
  Forall2 (agree_on_documents X) (all_outputs out1) (all_outputs out2) →
  _convert_outputs model (X, out1) is_train = _convert_outputs model (X, out2) is_train.
Proof.
  intros Hagree. unfold _convert_outputs, getitem_dict.
  destruct (attrs model !! "_all_layer_outputs") as [b|]; [|done].
  rewrite !result_bind_ok.
  assert (∀ b' : bool,
    (if b' then
       mapM (λ '(i, len), mapM (λ output, index_row_prefix output i len)
                               (all_outputs out1)) (enumerate (shape0 <$> X))
     else
       mapM (λ '(i, len), final ← getitem_last (all_outputs out1);
                          y ← index_row_prefix final i len; mret [y])
            (enumerate (shape0 <$> X)))
    = (if b' then
         mapM (λ '(i, len), mapM (λ output, index_row_prefix output i len)
                                 (all_outputs out2)) (enumerate (shape0 <$> X))
       else
         mapM (λ '(i, len), final ← getitem_last (all_outputs out2);
                            y ← index_row_prefix final i len; mret [y])
              (enumerate (shape0 <$> X)))) as Hsame.
  { intros [|]; apply mapM_result_ext; intros [i len] Hin;
      apply enumerate_lengths_lookup in Hin as (x & Hx & ->).
    - apply (mapM_result_Forall2 (agree_on_documents X)); [done|].
      intros t1 t2 Ht. by apply (index_row_prefix_agree X).
    - unfold getitem_last.
      destruct (Forall2_last _ _ _ Hagree) as [t1 t2 Ht|]; [|done].
      rewrite !result_bind_ok. by rewrite (index_row_prefix_agree X t1 t2 i x). }
  by rewrite (Hsame b).
Qed.

(** X11. Gradients nested like the forward outputs, one list per document with
    one gradient per returned layer, always pass the count assertion of the
    backward closure. *)
Theorem convert_for_torch_backward_accepts_same_shape (model : Model)
    (X : list (list Z)) (out : PyTorchTransformerOutput float) (is_train : bool)
    res bwd (dY : list (list (list (list float)))) :
  _convert_outputs model (X, out) is_train = Ok (res, bwd) →
  length <$> dY = length <$> outputs res →
  ∃ Yt_flat,
    bwd dY = Ok (mkArgsKwargs [Yt_flat]
                   {["grad_tensors" := (λ y, xp2torch y None) <$> concat dY]})
    ∧ length Yt_flat = length (concat dY).
Proof.
  intros Hfwd Hshape.
  apply convert_outputs_closure in Hfwd as (Yt & -> & Hout).
  rewrite convert_for_torch_backward_spec.
  assert (length (concat Yt) = length (concat dY)) as Hcount.
  { apply length_concat_by_shape. rewrite Hshape, Hout.
    rewrite <- list_fmap_compose. apply list_fmap_ext.
    intros i l _. simpl. by rewrite length_fmap. }
  rewrite decide_True by done. eauto.
Qed.

(** X12. The flattening is document-major and layer-minor. In full mode with
    [L] layers, position [i * L + j] of the flattened forward tensors is the
    slice of layer [j] for document [i], and the same position of the
    flattened gradients is the gradient given for document [i], layer [j]. *)
Theorem convert_for_torch_backward_flat_order (model : Model) (X : list (list Z))
    (out : PyTorchTransformerOutput float) (is_train : bool)
    (dY : list (list (list (list float)))) :
  attrs model !! "_all_layer_outputs" = Some true →
  Forall (λ t, length X ≤ length (tt_data t)) (all_outputs out) →
  all_outputs out ≠ [] →
  Forall (λ g, length g = length (all_outputs out)) dY →
  length dY = length X →
  ∃ res bwd Yt_flat dYt_flat,
    _convert_outputs model (X, out) is_train = Ok (res, bwd)
    ∧ bwd dY = Ok (mkArgsKwargs [Yt_flat] {["grad_tensors" := dYt_flat]})
    ∧ ∀ i j x t, X !! i = Some x → all_outputs out !! j = Some t →
        Yt_flat !! (i * length (all_outputs out) + j) = Some (slice_row t i (length x))
        ∧ ∀ gs g, dY !! i = Some gs → gs !! j = Some g →
            dYt_flat !! (i * length (all_outputs out) + j) = Some (xp2torch g None).
Proof.
  intros Hattr Hrows Hne HdY HlenY.
  set (L := length (all_outputs out)) in *.
  assert (Forall (λ l, length l = L) (retained true X out)) as Hret.
  { apply Forall_forall. intros l Hl. unfold retained in Hl.
    apply elem_of_lookup_imap in Hl as (i & x & -> & _).
    by rewrite length_fmap. }
  assert (length (concat (retained true X out)) = length (concat dY)) as Hcount.
  { apply length_concat_by_shape.
    rewrite (const_fmap length (retained true X out) L)
      by (intros i l Hl; by apply (Forall_lookup_1 _ _ _ _ Hret Hl)).
    rewrite (const_fmap length dY L)
      by (intros i l Hl; by apply (Forall_lookup_1 _ _ _ _ HdY Hl)).
    unfold retained. by rewrite length_imap, HlenY. }
  eexists _, _, _, _. split; [by apply convert_outputs_run|]. split.
  { rewrite convert_for_torch_backward_spec. by rewrite decide_True. }
  intros i j x t Hx Ht. split.
  - apply (lookup_concat_uniform L _ i j
             ((λ t, slice_row t i (length x)) <$> all_outputs out)); [done| |].
    + unfold retained. by rewrite list_lookup_imap, Hx.
    + by rewrite list_lookup_fmap, Ht.
  - intros gs g Hgs Hg. rewrite list_lookup_fmap.
    by rewrite (lookup_concat_uniform L dY i j gs g).
Qed.

Lemma unpad_document_shape (num_hidden_layers S : nat) (X : list (list Z))
    (out : PyTorchTransformerOutput float) (b : bool) (i : nat) (x : list Z) :
  encoder_output_for num_hidden_layers (length X) S out →
  X !! i = Some x → length x ≤ S →
  let layers := (λ t, take (length x) (default [] (tt_data t !! i)))
                  <$> selected_layers b out in
  length layers = (if b then num_hidden_layers + 1 else 1)
  ∧ Forall (λ y, length y = length x) layers.
Proof.
  intros Hout Hx Hle layers.
  pose proof (encoder_output_rows _ _ _ _ Hout) as [Hne Hrows].
  destruct Hout as [Hlayers _]. split.
  - unfold layers. rewrite length_fmap, length_selected_layers by done.
    by destruct b.
  - apply Forall_fmap, Forall_forall. intros t Ht%selected_layers_subset. simpl.
    destruct (Hrows t Ht) as [HN HS].
    destruct (lookup_lt_is_Some_2 (tt_data t) i) as [row Hrow].
    { rewrite HN. by apply lookup_lt_Some in Hx. }
    rewrite Hrow. simpl. rewrite length_take, (HS i row Hrow). lia.
Qed.
End UnpadContents.

(** ** Padding, encoding and un-padding in sequence *)

Section PadEncodeUnpad.
Context {float : Type} (fzero : float) {PyAny : Type}.

(** X13. For a batch that fits and an encoder that keeps the shape of its
    input, padding, encoding and un-padding in sequence succeed and give
    every document [num_hidden_layers + 1] layers in full mode and one in
    last-layer mode, each with exactly as many timesteps as the document
    has pieces: the padding added on the way in is gone on the way out. *)
Theorem pad_encode_unpad (model : Model) (X : list (list Z)) (is_train b : bool)
    (max_model_seq_len padding_idx : Z) (log : list alloc_event)
    (num_hidden_layers : nat)
    (encode : torch_tensor (list (list Z)) → PyTorchTransformerOutput float) :
  X ≠ [] →
  Forall (λ x, (Z.of_nat (length x) ≤ max_model_seq_len)%Z) X →
  attrs model !! "_all_layer_outputs" = Some b →
  shape_preserving num_hidden_layers encode →
  ∃ Xt bwd_in log' res bwd_out,
    _convert_inputs (PyAny := PyAny) fzero model X is_train max_model_seq_len
      padding_idx log
    = (Ok (mkArgsKwargs [Xt] ∅, bwd_in), log')
    ∧ _convert_outputs model (X, encode Xt) is_train = Ok (res, bwd_out)
    ∧ length (outputs res) = length X
    ∧ ∀ i x, X !! i = Some x →
        ∃ layers,
          outputs res !! i = Some layers
          ∧ length layers = (if b then num_hidden_layers + 1 else 1)
          ∧ Forall (λ y, length y = length x) layers.
Proof.
  intros Hne Hfit Hattr Henc.
  set (m := max_list (length <$> X)).
  set (Xt := TorchTensor (input_device (ops model)) (padded m padding_idx <$> X)).
  assert (encoder_output_for num_hidden_layers (length X) m (encode Xt)) as Hout.
  { apply Henc; simpl.
    - by rewrite length_fmap.
    - apply Forall_fmap, Forall_forall. intros x Hx. simpl.
      apply length_padded. by apply max_list_bounds. }
  pose proof (encoder_output_rows _ _ _ _ Hout) as [Hlayers Hrows].
  exists Xt. eexists _, _, _, _. split; [by apply convert_inputs_fits|].
  split.
  { apply convert_outputs_run; [done| |done].
    apply Forall_forall. intros t Ht. destruct (Hrows t Ht) as [-> _]. done. }
  cbn [outputs]. split.
  { unfold unpadded, retained. by rewrite length_fmap, length_imap. }
  intros i x Hx. eexists. split; [by apply unpadded_lookup|].
  apply (unpad_document_shape num_hidden_layers m X); [done|done|].
  apply max_list_bounds. by apply list_elem_of_lookup_2 in Hx.
Qed.
End PadEncodeUnpad.

(** ** Composition glue: errors and initialization *)

Section GlueMore.
Context {St : Type}.
Context {TransformerInT TransformerOutT GradT LayerGradT PieceGradT : Type}.
Context {TorchTransformerModelT Tok2PiecesModelT SpanExtractorModelT
         RemoveBosEosT ChainT : Type}.

Abbreviation layer_ty :=
  (Layer (St := St) (TransformerInT := TransformerInT)
         (TransformerOutT := TransformerOutT) (GradT := GradT)
         (LayerGradT := LayerGradT)).
Abbreviation model_ty :=
  (TransformerModel (St := St) (TransformerInT := TransformerInT)
         (TransformerOutT := TransformerOutT) (GradT := GradT)
         (LayerGradT := LayerGradT)
         (TorchTransformerModelT := TorchTransformerModelT)
         (Tok2PiecesModelT := Tok2PiecesModelT)).

Context (initialize : layer_ty → option TransformerInT → option TransformerOutT →
                      M St unit)
        (with_non_ws_tokens : ChainT → layer_ty)
        (chain : Tok2PiecesModelT → SpanExtractorModelT → RemoveBosEosT → ChainT)
        (remove_bos_eos : RemoveBosEosT)
        (get_dim : TorchTransformerModelT → string → result Z).

Abbreviation build_model := (build_transformer_model_v1 with_non_ws_tokens chain
                             remove_bos_eos get_dim).

(** X14. Exceptions pass through the composed model unchanged. When the wrapped
    layer's forward raises, [transformer_model_forward] raises the same
    exception and leaves the state the layer left; when the wrapped
    backprop callback raises, so does the returned closure, instead of
    returning the empty list. *)
Theorem transformer_model_forward_propagates_errors with_spans transformer
    piece_encoder (model : model_ty) docs is_train (s : St) :
  build_model with_spans transformer piece_encoder = Ok model →
  match layer_call
          (with_non_ws_tokens (chain piece_encoder (with_spans transformer) remove_bos_eos))
          docs is_train s with
  | (Raise e, s') =>
      transformer_model_forward (PieceGradT := PieceGradT) model docs is_train s
      = (Raise e, s')
  | (Ok (Y, backprop_layer), s') =>
      ∃ bwd,
        transformer_model_forward (PieceGradT := PieceGradT) model docs is_train s
        = (Ok (Y, bwd), s')
        ∧ ∀ dY t e t', backprop_layer dY t = (Raise e, t') →
                       bwd dY t = (Raise e, t')
  end.
Proof.
  intros Hbuild. apply build_transformer_model_layers in Hbuild.
  erewrite forward_first_layer by (by rewrite Hbuild).
  destruct (layer_call _ docs is_train s) as [[[Y bl]|e] s']; [|done].
  eexists. split; [done|].
  intros dY t e t' Hfail. by rewrite backprop_returns_empty, Hfail.
Qed.

(** X15. On a model without layers, forward and initialization both fail with
    the [IndexError] of [model.layers[0]] and leave the state untouched. *)
Theorem transformer_model_without_layers (model : model_ty) docs is_train X Y (s : St) :
  tm_layers model = [] →
  transformer_model_forward (PieceGradT := PieceGradT) model docs is_train s
  = (Raise (IndexError "list index out of range"), s)
  ∧ transformer_model_init initialize model X Y s
    = (Raise (IndexError "list index out of range"), s).
Proof.
  intros Hnone. unfold transformer_model_forward, transformer_model_init, getitem.
  rewrite Hnone. split; reflexivity.
Qed.

(** X16. Initializing a composed model initializes its one layer, once, with the
    sample input and output it was given, and returns the model itself; an
    exception of the layer's [initialize] is passed on. *)
Theorem transformer_model_init_returns_model with_spans transformer piece_encoder
    (model : model_ty) X Y (s : St) :
  build_model with_spans transformer piece_encoder = Ok model →
  transformer_model_init initialize model X Y s
  = match initialize
            (with_non_ws_tokens (chain piece_encoder (with_spans transformer) remove_bos_eos))
            X Y s with
    | (Ok _, s') => (Ok model, s')
    | (Raise e, s') => (Raise e, s')
    end.
Proof.
  intros Hbuild. apply build_transformer_model_layers in Hbuild.
  unfold transformer_model_init, getitem. rewrite Hbuild. cbn [lookup list_lookup].
  rewrite run_bind, run_lift, run_bind.
  by destruct (initialize _ X Y s) as [[[]|e] s'].
Qed.

End GlueMore.

(** ** The encoder wrappers and their bound converters *)

Section WrapperMore.
Context {float : Type} (fzero : float) {PyAny V : Type}.

Lemma convert_inputs_accepts_iff (model : Model) (X : list (list Z)) (is_train : bool)
    (max_model_seq_len padding_idx : Z) (log : list alloc_event) :
  X ≠ [] →
  (∃ out log',
     _convert_inputs (PyAny := PyAny) fzero model X is_train max_model_seq_len
       padding_idx log = (Ok out, log'))
  ↔ Forall (λ x, (Z.of_nat (length x) ≤ max_model_seq_len)%Z) X.
Proof.
  intros Hne. split.
  - intros (out & log' & Hrun). revert Hrun.
    rewrite convert_inputs_run. unfold convert_inputs_outcome.
    destruct X as [|x0 X']; [done|]. cbv zeta.
    destruct (decide _) as [Hlong|Hfit]; [discriminate|]. intros _.
    apply Forall_forall. intros x Hx.
    pose proof (max_list_bounds (x0 :: X') x Hx). lia.
  - intros Hfit. eexists _, _. by apply convert_inputs_fits.
Qed.

(** X18. The input converter of every wrapper [_pytorch_encoder] returns
    enforces the encoder's own limit and uses the encoder's own padding id:
    it accepts a non-empty batch exactly when no sequence is longer than
    [encoder.max_seq_len], and then pads with [encoder.padding_idx],
    whatever the hidden width, the precision flag and the scaler
    configuration are. *)
Theorem pytorch_encoder_convert_inputs (scaler_keywords : gset string)
    (encoder : CuratedEncoder) (hidden_width : Z)
    (mixed_precision : bool) (cfg : py_dict V) (w : PyTorchWrapper V)
    (model : Model) (X : list (list Z)) (is_train : bool) (log : list alloc_event) :
  _pytorch_encoder scaler_keywords encoder hidden_width mixed_precision cfg = Ok w →
  X ≠ [] →
  ((∃ out log',
      pytorch_convert_inputs (PyAny := PyAny) fzero w model X is_train log = (Ok out, log'))
   ↔ Forall (λ x, (Z.of_nat (length x) ≤ enc_max_seq_len encoder)%Z) X)
  ∧ ∀ out bwd log',
      pytorch_convert_inputs (PyAny := PyAny) fzero w model X is_train log
      = (Ok (out, bwd), log') →
      ∃ Xt, args out = [Xt]
            ∧ tt_data Xt
              = padded (max_list (length <$> X)) (enc_padding_idx encoder) <$> X.
Proof.
  intros Hw Hne.
  destruct (pytorch_encoder_returned _ _ _ _ _ _ Hw) as (Hmax & Hpad & _).
  unfold pytorch_convert_inputs. rewrite Hmax, Hpad. split.
  - by apply convert_inputs_accepts_iff.
  - intros out bwd log'. rewrite convert_inputs_run. unfold convert_inputs_outcome.
    destruct X as [|x0 X']; [done|]. cbv zeta.
    destruct (decide _); [discriminate|]. intros [= <- _ _]. eauto.
Qed.

(** X19. The input converter of the wrapper [_torchscript_encoder] builds
    enforces the [model_max_length] it was given and pads with the
    [padding_idx] it was given. *)
Theorem torchscript_encoder_convert_inputs (model_max_length padding_idx : Z)
    (model : Model) (X : list (list Z)) (is_train : bool) (log : list alloc_event) :
  X ≠ [] →
  let w := _torchscript_encoder model_max_length padding_idx in
  ((∃ out log',
      torchscript_convert_inputs (PyAny := PyAny) fzero w model X is_train log
      = (Ok out, log'))
   ↔ Forall (λ x, (Z.of_nat (length x) ≤ model_max_length)%Z) X)
  ∧ ∀ out bwd log',
      torchscript_convert_inputs (PyAny := PyAny) fzero w model X is_train log
      = (Ok (out, bwd), log') →
      ∃ Xt, args out = [Xt]
            ∧ tt_data Xt = padded (max_list (length <$> X)) padding_idx <$> X.
Proof.
  intros Hne w. unfold torchscript_convert_inputs. cbn [w _torchscript_encoder
    ts_max_model_seq_len ts_padding_idx]. split.
  - by apply convert_inputs_accepts_iff.
  - intros out bwd log'. rewrite convert_inputs_run. unfold convert_inputs_outcome.
    destruct X as [|x0 X']; [done|]. cbv zeta.
    destruct (decide _); [discriminate|]. intros [= <- _ _]. eauto.
Qed.
End WrapperMore.

Section WrapperOutputs.
Context {float V : Type}.

(** X20. Every wrapper fresh from [_pytorch_encoder] un-pads in full mode:
    on an encoder output with a row per sequence, [_convert_outputs] returns
    for every document as many layers as the encoder returned and marks the
    result as not last-layer-only. *)
Theorem pytorch_encoder_unpads_all_layers (scaler_keywords : gset string)
    (encoder : CuratedEncoder) (hidden_width : Z)
    (mixed_precision : bool) (cfg : py_dict V) (w : PyTorchWrapper V) (o : Ops)
    (X : list (list Z)) (out : PyTorchTransformerOutput float) (is_train : bool) :
  _pytorch_encoder scaler_keywords encoder hidden_width mixed_precision cfg = Ok w →
  Forall (λ t, length X ≤ length (tt_data t)) (all_outputs out) →
  ∃ res bwd,
    _convert_outputs (pytorch_wrapper_model o w) (X, out) is_train
    = Ok (res, bwd)
    ∧ last_layer_only res = false
    ∧ length (outputs res) = length X
    ∧ Forall (λ layers, length layers = length (all_outputs out)) (outputs res).
Proof.
  intros Hw Hrows.
  destruct (pytorch_encoder_returned _ _ _ _ _ _ Hw) as (_ & _ & Hattrs).
  unfold _convert_outputs, getitem_dict.
  cbn [pytorch_wrapper_model attrs].
  rewrite Hattrs, lookup_singleton_eq, result_bind_ok.
  rewrite Forall_forall in Hrows.
  rewrite (mapM_result_ok _
    (λ '(i, len), (λ t, slice_row t i len) <$> all_outputs out)).
  - rewrite result_bind_ok. eexists _, _. split; [reflexivity|].
    cbn [outputs last_layer_only]. split; [done|]. split.
    + unfold enumerate. by rewrite !length_fmap, length_imap, length_fmap.
    + apply Forall_fmap, Forall_fmap, Forall_forall. intros [i len] _. simpl.
      by rewrite !length_fmap.
  - intros [i len] Hin. apply mapM_result_ok. intros t Ht.
    apply index_row_prefix_ok. specialize (Hrows t Ht).
    apply elem_of_enumerate, lookup_lt_Some in Hin.
    rewrite length_fmap in Hin. lia.
Qed.

End WrapperOutputs.

(** ** Checkpoint loader: failures *)

Section CheckpointMore.
Context {Tensor Config Path ModelRest ShimRest PyAny : Type}.
Context (torch_load : Path → torch_device → result (gmap string Tensor))
        (convert_pretrained_model_for_encoder :
           encoder_obj (Tensor := Tensor) (Config := Config) →
           gmap string Tensor → result (gmap string Tensor))
        (load_state_dict : Config → gmap string Tensor →
                           M (module_state (Tensor := Tensor)) unit)
        (module_to : Config → torch_device → M (module_state (Tensor := Tensor)) unit).

Abbreviation heap_ty := (gmap positive (obj (Tensor := Tensor) (Config := Config)
                                         (ModelRest := ModelRest) (ShimRest := ShimRest))).
Abbreviation loader_fn := (build_pytorch_checkpoint_loader_v1 (PyAny := PyAny)
                           (ModelRest := ModelRest) (ShimRest := ShimRest)
                           torch_load convert_pretrained_model_for_encoder
                           load_state_dict module_to).

Lemma loader_reaches_encoder (path : Path) (model : positive) (X Y : option PyAny)
    (h : heap_ty) shims rest shim0 shim_rest enc e :
  h !! model = Some (ObjModel shims rest) →
  shims !! 0 = Some shim0 →
  h !! shim0 = Some (ObjShim enc shim_rest) →
  h !! enc = Some (ObjEncoder e) →
  loader_fn path model X Y h
  = match torch_load path get_torch_default_device
          ≫= convert_pretrained_model_for_encoder e with
    | Raise err => (Raise err, h)
    | Ok params =>
        (_ ← call_method enc (λ cfg, load_state_dict cfg params);
         _ ← call_method enc (λ cfg, module_to cfg get_torch_default_device);
         mret model) h
    end.
Proof.
  intros Hmodel Hshim0 Hshim Henc.
  unfold build_pytorch_checkpoint_loader_v1, load.
  rewrite run_bind. unfold get_shims at 1. rewrite Hmodel.
  rewrite run_bind, run_lift. unfold getitem. rewrite Hshim0.
  rewrite run_bind. unfold get_shim_model at 1. rewrite Hshim.
  rewrite run_bind, run_lift.
  destruct (torch_load path get_torch_default_device) as [params|err]; [|done].
  rewrite result_bind_ok, run_bind. unfold deref_encoder at 1. rewrite Henc.
  rewrite run_bind, run_lift.
  by destruct (convert_pretrained_model_for_encoder e params).
Qed.

(** X22. When the checkpoint cannot be read, or its keys cannot be converted
    for the encoder, the callback raises that error and the heap is exactly
    as before: the encoder's weights and device are not touched. *)
Theorem checkpoint_loader_early_failure (path : Path) (model : positive)
    (X Y : option PyAny) (h : heap_ty) shims rest shim0 shim_rest enc e err :
  h !! model = Some (ObjModel shims rest) →
  shims !! 0 = Some shim0 →
  h !! shim0 = Some (ObjShim enc shim_rest) →
  h !! enc = Some (ObjEncoder e) →
  torch_load path get_torch_default_device ≫= convert_pretrained_model_for_encoder e
  = Raise err →
  build_pytorch_checkpoint_loader_v1 (PyAny := PyAny) torch_load
    convert_pretrained_model_for_encoder load_state_dict module_to path model X Y h
  = (Raise err, h).
Proof.
  intros Hmodel Hshim0 Hshim Henc Hfail.
  rewrite (loader_reaches_encoder path model X Y h _ _ _ _ _ _ Hmodel Hshim0 Hshim Henc).
  by rewrite Hfail.
Qed.

(** X23. On a model without shims the callback fails with the [IndexError] of
    [model.shims[0]] and leaves the heap as it was. *)
Theorem checkpoint_loader_no_shims (path : Path) (model : positive)
    (X Y : option PyAny) (h : heap_ty) rest :
  h !! model = Some (ObjModel [] rest) →
  build_pytorch_checkpoint_loader_v1 (PyAny := PyAny) torch_load
    convert_pretrained_model_for_encoder load_state_dict module_to path model X Y h
  = (Raise (IndexError "list index out of range"), h).
Proof.
  intros Hmodel. unfold build_pytorch_checkpoint_loader_v1, load.
  rewrite run_bind. unfold get_shims at 1. by rewrite Hmodel.
Qed.

(** X24. When [load_state_dict] raises, the callback raises the same error
    without moving the encoder: the encoder is left in the state
    [load_state_dict] left it in, whatever part of the weights that call
    had already stored, and [to] is not called. *)
Theorem checkpoint_loader_load_state_dict_failure (path : Path) (model : positive)
    (X Y : option PyAny) (h : heap_ty) shims rest shim0 shim_rest enc e
    params err ms :
  h !! model = Some (ObjModel shims rest) →
  shims !! 0 = Some shim0 →
  h !! shim0 = Some (ObjShim enc shim_rest) →
  h !! enc = Some (ObjEncoder e) →
  torch_load path get_torch_default_device ≫= convert_pretrained_model_for_encoder e
  = Ok params →
  load_state_dict (enc_config e) params (enc_state e) = (Raise err, ms) →
  build_pytorch_checkpoint_loader_v1 (PyAny := PyAny) torch_load
    convert_pretrained_model_for_encoder load_state_dict module_to path model X Y h
  = (Raise err, <[enc := ObjEncoder {| enc_config := enc_config e; enc_state := ms |}]> h).
Proof.
  intros Hmodel Hshim0 Hshim Henc Hparams Hfail.
  rewrite (loader_reaches_encoder path model X Y h _ _ _ _ _ _ Hmodel Hshim0 Hshim Henc).
  rewrite Hparams, run_bind.
  rewrite (call_method_at h enc e) by done.
  by rewrite Hfail.
Qed.
End CheckpointMore.

(** ** Concrete instances of the further properties *)

Lemma convert_inputs_allocation_and_device_witness :
  ∃ out bwd log',
    _convert_inputs (PyAny := unit) 0%Z Sample.gpu_model Demo.batch true 512 1 []
    = (Ok (out, bwd), log')
    ∧ log' = [AllocFull 2 5 1]
    ∧ kwargs out = ∅
    ∧ ∃ Xt, args out = [Xt] ∧ tt_device Xt = Cuda 1.
Proof.
  eexists _, _, _. split; [reflexivity|].
  exact (convert_inputs_allocation_and_device (PyAny := unit) 0%Z Sample.gpu_model
           Demo.batch true 512 1 [] _ _ _ eq_refl).
Defined.

Lemma convert_inputs_equal_lengths_witness :
  ∃ Xt bwd log',
    _convert_inputs (PyAny := unit) 0%Z Demo.cpu_model [[1; 2]; [3; 4]]%Z false 512 0 []
    = (Ok (mkArgsKwargs [Xt] ∅, bwd), log')
    ∧ tt_data Xt = [[1; 2]; [3; 4]]%Z.
Proof.
  apply (convert_inputs_equal_lengths (PyAny := unit) 0%Z Demo.cpu_model
           [[1; 2]; [3; 4]]%Z false 512 0 [] 2).
  - done.
  - repeat constructor.
  - lia.
Defined.

Lemma convert_outputs_missing_flag_witness :
  _convert_outputs Demo.cpu_model (Demo.short_batch, Demo.encoder_output) false
  = Raise (KeyError "_all_layer_outputs").
Proof.
  exact (convert_outputs_missing_flag Demo.cpu_model Demo.short_batch
           Demo.encoder_output false eq_refl).
Defined.

Lemma convert_outputs_empty_batch_witness :
  ∃ bwd,
    _convert_outputs (set_all_layer_outputs false Demo.cpu_model)
      ([], {| all_outputs := [] |} : PyTorchTransformerOutput Z) true
    = Ok ({| outputs := []; last_layer_only := negb false |}, bwd)
    ∧ bwd [] = Ok (mkArgsKwargs [[]] {["grad_tensors" := []]}).
Proof.
  exact (convert_outputs_empty_batch (set_all_layer_outputs false Demo.cpu_model)
           {| all_outputs := [] |} true false eq_refl).
Defined.

Lemma convert_outputs_no_layers_witness :
  (∃ bwd,
     _convert_outputs (set_all_layer_outputs true Demo.cpu_model)
       (Demo.short_batch, {| all_outputs := [] |} : PyTorchTransformerOutput Z) false
     = Ok ({| outputs := replicate (length Demo.short_batch) [];
              last_layer_only := false |}, bwd))
  ∧ _convert_outputs (set_all_layer_outputs false Demo.cpu_model)
      (Demo.short_batch, {| all_outputs := [] |} : PyTorchTransformerOutput Z) false
    = Raise (IndexError "list index out of range").
Proof.
  apply (convert_outputs_no_layers Demo.cpu_model Demo.short_batch
           {| all_outputs := [] |} false); done.
Defined.

Lemma convert_outputs_missing_rows_witness :
  _convert_outputs (set_all_layer_outputs true Demo.cpu_model)
    (Demo.short_batch, Sample.short_rows_output) false
  = Raise (IndexError "index is out of bounds for dimension 0").
Proof.
  apply (convert_outputs_missing_rows (set_all_layer_outputs true Demo.cpu_model)
           Demo.short_batch Sample.short_rows_output false).
  - reflexivity.
  - apply Exists_cons_hd. simpl. lia.
Defined.

Lemma convert_outputs_last_layer_only_reads_final_witness :
  _convert_outputs (set_all_layer_outputs false Demo.cpu_model)
    (Demo.short_batch, Sample.short_rows_output) false
  = _convert_outputs (set_all_layer_outputs false Demo.cpu_model)
      (Demo.short_batch, Demo.encoder_output) false.
Proof.
  exact (convert_outputs_last_layer_only_reads_final Demo.cpu_model Demo.short_batch
           Sample.short_rows_output Demo.encoder_output false eq_refl).
Defined.

Lemma convert_outputs_clips_to_row_witness :
  ∃ res bwd,
    _convert_outputs (set_all_layer_outputs true Demo.cpu_model)
      (Demo.short_batch, Sample.clipped_output) false
    = Ok (res, bwd)
    ∧ ∀ i x, Demo.short_batch !! i = Some x →
        ∃ layers,
          outputs res !! i = Some layers
          ∧ ∀ k t row, selected_layers true Sample.clipped_output !! k = Some t →
              tt_data t !! i = Some row →
              ∃ y, layers !! k = Some y
                   ∧ y = take (length x) row
                   ∧ length y = length x `min` length row.
Proof.
  apply (convert_outputs_clips_to_row (set_all_layer_outputs true Demo.cpu_model)
           Demo.short_batch Sample.clipped_output false true).
  - reflexivity.
  - repeat constructor.
  - done.
Defined.

Lemma sample_outputs_agree :
  Forall2 (agree_on_documents Demo.short_batch)
    (all_outputs Demo.encoder_output) (all_outputs Sample.encoder_output_other_padding).
Proof.
  repeat constructor; intros [|[|i]] x Hx; simpl in Hx; by simplify_eq.
Qed.

Lemma convert_outputs_ignores_padding_witness :
  _convert_outputs (set_all_layer_outputs true Demo.cpu_model)
    (Demo.short_batch, Demo.encoder_output) false
  = _convert_outputs (set_all_layer_outputs true Demo.cpu_model)
      (Demo.short_batch, Sample.encoder_output_other_padding) false.
Proof.
  exact (convert_outputs_ignores_padding (set_all_layer_outputs true Demo.cpu_model)
           Demo.short_batch Demo.encoder_output Sample.encoder_output_other_padding
           false sample_outputs_agree).
Defined.

Lemma convert_for_torch_backward_accepts_same_shape_witness :
  ∃ Yt_flat,
    convert_for_torch_backward (retained true Demo.short_batch Demo.encoder_output)
      [[[[0]; [0]]; [[0]; [0]]]; [[[0]]; [[0]]]]%Z
    = Ok (mkArgsKwargs [Yt_flat]
            {["grad_tensors" :=
                (λ y, xp2torch y None)
                  <$> concat [[[[0]; [0]]; [[0]; [0]]]; [[[0]]; [[0]]]]%Z]})
    ∧ length Yt_flat = length (concat [[[[0]; [0]]; [[0]; [0]]]; [[[0]]; [[0]]]]%Z).
Proof.
  exact (convert_for_torch_backward_accepts_same_shape
           (set_all_layer_outputs true Demo.cpu_model) Demo.short_batch
           Demo.encoder_output false
           {| outputs := unpadded true Demo.short_batch Demo.encoder_output;
              last_layer_only := false |}
           (convert_for_torch_backward (retained true Demo.short_batch Demo.encoder_output))
           [[[[0]; [0]]; [[0]; [0]]]; [[[0]]; [[0]]]]%Z eq_refl eq_refl).
Defined.

Lemma convert_for_torch_backward_flat_order_witness :
  ∃ res bwd Yt_flat dYt_flat,
    _convert_outputs (set_all_layer_outputs true Demo.cpu_model)
      (Demo.short_batch, Demo.encoder_output) false
    = Ok (res, bwd)
    ∧ bwd [[[[10]; [11]]; [[12]; [13]]]; [[[14]]; [[15]]]]%Z
      = Ok (mkArgsKwargs [Yt_flat] {["grad_tensors" := dYt_flat]})
    ∧ ∀ i j x t, Demo.short_batch !! i = Some x →
        all_outputs Demo.encoder_output !! j = Some t →
        Yt_flat !! (i * length (all_outputs Demo.encoder_output) + j)
        = Some (slice_row t i (length x))
        ∧ ∀ gs g,
            [[[[10]; [11]]; [[12]; [13]]]; [[[14]]; [[15]]]]%Z !! i = Some gs →
            gs !! j = Some g →
            dYt_flat !! (i * length (all_outputs Demo.encoder_output) + j)
            = Some (xp2torch g None).
Proof.
  apply (convert_for_torch_backward_flat_order
           (set_all_layer_outputs true Demo.cpu_model) Demo.short_batch
           Demo.encoder_output false
           [[[[10]; [11]]; [[12]; [13]]]; [[[14]]; [[15]]]]%Z).
  - reflexivity.
  - repeat constructor.
  - done.
  - repeat constructor.
  - reflexivity.
Defined.

Lemma sample_encode_shape_preserving : shape_preserving 1 Sample.encode.
Proof.
  intros Xt N S HN HS. split; [reflexivity|].
  unfold Sample.encode. cbn [all_outputs].
  repeat constructor; cbn [tt_data]; rewrite ?length_fmap; try done;
    apply Forall_fmap; (eapply Forall_impl; [exact HS|]);
    intros row Hrow; simpl; by rewrite length_fmap.
Qed.

Lemma pad_encode_unpad_witness :
  ∃ Xt bwd_in log' res bwd_out,
    _convert_inputs (PyAny := unit) 0%Z (set_all_layer_outputs true Demo.cpu_model)
      Demo.batch false 512 0 []
    = (Ok (mkArgsKwargs [Xt] ∅, bwd_in), log')
    ∧ _convert_outputs (set_all_layer_outputs true Demo.cpu_model)
        (Demo.batch, Sample.encode Xt) false
      = Ok (res, bwd_out)
    ∧ length (outputs res) = length Demo.batch
    ∧ ∀ i x, Demo.batch !! i = Some x →
        ∃ layers,
          outputs res !! i = Some layers
          ∧ length layers = 1 + 1
          ∧ Forall (λ y, length y = length x) layers.
Proof.
  apply (pad_encode_unpad (PyAny := unit) 0%Z (set_all_layer_outputs true Demo.cpu_model)
           Demo.batch false true 512 0 [] 1 Sample.encode).
  - done.
  - repeat constructor; simpl; lia.
  - reflexivity.
  - exact sample_encode_shape_preserving.
Defined.

Lemma transformer_model_forward_propagates_errors_witness :
  ∃ model bwd,
    build_transformer_model_v1 Sample.failing_backprop_layer Demo.chain 0 Demo.get_dim
      (λ transformer, transformer) 1 2 = Ok model
    ∧ transformer_model_forward (PieceGradT := Z) model 10 true 0 = (Ok (13, bwd), 1)
    ∧ ∀ (dY t : nat) e t',
        (Raise (ExternalError "backward failed") : result nat, S t) = (Raise e, t') →
        bwd dY t = (Raise e, t').
Proof.
  eexists.
  destruct (transformer_model_forward_propagates_errors (PieceGradT := Z)
              Sample.failing_backprop_layer Demo.chain 0 Demo.get_dim
              (λ transformer, transformer) 1 2 _ 10 true 0 eq_refl) as [bwd Hbwd].
  exists bwd. split; [reflexivity|]. exact Hbwd.
Defined.

Lemma transformer_model_without_layers_witness :
  transformer_model_forward (PieceGradT := Z) Sample.model_without_layers 10 true 0
  = (Raise (IndexError "list index out of range"), 0)
  ∧ transformer_model_init Sample.initialize Sample.model_without_layers
      (Some 10) None 0
    = (Raise (IndexError "list index out of range"), 0).
Proof.
  exact (transformer_model_without_layers (PieceGradT := Z) Sample.initialize
           Sample.model_without_layers 10 true (Some 10) None 0 eq_refl).
Defined.

Lemma transformer_model_init_returns_model_witness :
  ∃ model,
    build_transformer_model_v1 Demo.counting_layer Demo.chain 0 Demo.get_dim
      (λ transformer, transformer) 1 2 = Ok model
    ∧ transformer_model_init Sample.initialize model (Some 10) None 0 = (Ok model, 1)
    ∧ transformer_model_init Sample.initialize model None None 0
      = (Raise (ValueError "no sample input"), 0).
Proof.
  eexists. split; [reflexivity|]. split.
  - exact (transformer_model_init_returns_model Sample.initialize Demo.counting_layer
             Demo.chain 0 Demo.get_dim (λ transformer, transformer) 1 2 _
             (Some 10) None 0 eq_refl).
  - exact (transformer_model_init_returns_model Sample.initialize Demo.counting_layer
             Demo.chain 0 Demo.get_dim (λ transformer, transformer) 1 2 _
             None None 0 eq_refl).
Defined.

Lemma pytorch_encoder_convert_inputs_witness :
  ∃ w,
    _pytorch_encoder Demo.scaler_keywords Demo.bert_encoder 768 false Demo.frozen_config
    = Ok w
    ∧ ((∃ out log',
          pytorch_convert_inputs (PyAny := unit) 0%Z w Demo.cpu_model Demo.batch false []
          = (Ok out, log'))
       ↔ Forall (λ x, (Z.of_nat (length x) ≤ 512)%Z) Demo.batch)
    ∧ ∀ out bwd log',
        pytorch_convert_inputs (PyAny := unit) 0%Z w Demo.cpu_model Demo.batch false []
        = (Ok (out, bwd), log') →
        ∃ Xt, args out = [Xt]
              ∧ tt_data Xt = padded (max_list (length <$> Demo.batch)) 0 <$> Demo.batch.
Proof.
  eexists. split; [vm_compute; reflexivity|].
  refine (pytorch_encoder_convert_inputs (PyAny := unit) 0%Z Demo.scaler_keywords
            Demo.bert_encoder 768 false Demo.frozen_config _ Demo.cpu_model Demo.batch
            false [] _ _).
  - vm_compute. reflexivity.
  - done.
Defined.

Lemma torchscript_encoder_convert_inputs_witness :
  ((∃ out log',
      torchscript_convert_inputs (PyAny := unit) 0%Z (_torchscript_encoder 4 1)
        Demo.cpu_model Demo.batch false [] = (Ok out, log'))
   ↔ Forall (λ x, (Z.of_nat (length x) ≤ 4)%Z) Demo.batch)
  ∧ ∀ out bwd log',
      torchscript_convert_inputs (PyAny := unit) 0%Z (_torchscript_encoder 4 1)
        Demo.cpu_model Demo.batch false []
      = (Ok (out, bwd), log') →
      ∃ Xt, args out = [Xt]
            ∧ tt_data Xt = padded (max_list (length <$> Demo.batch)) 1 <$> Demo.batch.
Proof.
  apply (torchscript_encoder_convert_inputs (PyAny := unit) 0%Z 4 1 Demo.cpu_model
           Demo.batch false []).
  done.
Defined.

Lemma sample_plain_config_declared :
  dom (dict_items Sample.plain_config) ⊆ {["enabled"]} ∪ Demo.scaler_keywords.
Proof. apply (bool_decide_unpack _). vm_compute. exact I. Qed.

Lemma pytorch_encoder_unpads_all_layers_witness :
  ∃ w res bwd,
    _pytorch_encoder Demo.scaler_keywords Demo.bert_encoder 768 false Sample.plain_config
    = Ok w
    ∧ _convert_outputs
        (pytorch_wrapper_model {| device_type := "cpu"; device_id := 0 |} w)
        (Demo.short_batch, Demo.encoder_output) false
      = Ok (res, bwd)
    ∧ last_layer_only res = false
    ∧ length (outputs res) = length Demo.short_batch
    ∧ Forall (λ layers, length layers = length (all_outputs Demo.encoder_output))
             (outputs res).
Proof.
  destruct (pytorch_encoder_plain_keeps_enabled Demo.scaler_keywords Demo.bert_encoder
              768 false (dict_items Sample.plain_config) (PyBool true) eq_refl
              sample_plain_config_declared) as (w & Hw & _).
  destruct (pytorch_encoder_unpads_all_layers Demo.scaler_keywords Demo.bert_encoder 768
              false Sample.plain_config w {| device_type := "cpu"; device_id := 0 |}
              Demo.short_batch Demo.encoder_output false Hw
              ltac:(repeat constructor)) as (res & bwd & Hrun).
  exists w, res, bwd. split; [exact Hw|exact Hrun].
Defined.

Lemma checkpoint_loader_early_failure_witness :
  build_pytorch_checkpoint_loader_v1 (PyAny := unit) Demo.torch_load Demo.convert
    Demo.load_state_dict Demo.module_to "missing.pt" 1%positive None None Demo.heap0
  = (Raise (ExternalError "No such file or directory"), Demo.heap0).
Proof.
  exact (checkpoint_loader_early_failure (PyAny := unit) Demo.torch_load Demo.convert
           Demo.load_state_dict Demo.module_to "missing.pt" 1%positive None None
           Demo.heap0 [2%positive] tt 2%positive tt 3%positive Demo.encoder0
           (ExternalError "No such file or directory")
           eq_refl eq_refl eq_refl eq_refl eq_refl).
Defined.

Lemma checkpoint_loader_no_shims_witness :
  build_pytorch_checkpoint_loader_v1 (PyAny := unit) Demo.torch_load Demo.convert
    Demo.load_state_dict Demo.module_to "model.pt" 1%positive None None
    Sample.heap_no_shims
  = (Raise (IndexError "list index out of range"), Sample.heap_no_shims).
Proof.
  exact (checkpoint_loader_no_shims (PyAny := unit) Demo.torch_load Demo.convert
           Demo.load_state_dict Demo.module_to "model.pt" 1%positive None None
           Sample.heap_no_shims tt eq_refl).
Defined.

Lemma checkpoint_loader_load_state_dict_failure_witness :
  build_pytorch_checkpoint_loader_v1 (PyAny := unit) Demo.torch_load Demo.convert
    Sample.lenient_load_state_dict Demo.module_to "model.pt" 1%positive None None
    Demo.heap0
  = (Raise (ExternalError "Unexpected key(s) in state_dict"),
     <[3%positive :=
         ObjEncoder {| enc_config := tt;
                       enc_state := {| ms_weights := {["embeddings.weight" := 42%Z]};
                                       ms_device := Cuda 0 |} |}]> Demo.heap0).
Proof.
  exact (checkpoint_loader_load_state_dict_failure (PyAny := unit) Demo.torch_load
           Demo.convert Sample.lenient_load_state_dict Demo.module_to "model.pt"
           1%positive None None Demo.heap0 [2%positive] tt 2%positive tt 3%positive
           Demo.encoder0 {["embeddings.weight" := 42%Z]}
           (ExternalError "Unexpected key(s) in state_dict")
           {| ms_weights := {["embeddings.weight" := 42%Z]}; ms_device := Cuda 0 |}
           eq_refl eq_refl eq_refl eq_refl eq_refl eq_refl).
Defined.
